(** * Verification of the GitHub webhook receiver

    A shallow embedding of [webhook_receiver.py] and
    [models/repository_data.py]: the signature verifier, the two payload
    extractors, the record validator, the store insert and the [/webhook]
    endpoint, together with the library functions they call
    ([hashlib.sha256], [hmac.new], [str.split], [str()] / f-string
    formatting).

    Python values are a datatype [value]; a Python [str] is a [string] whose
    characters are the code points below 256 (what a WSGI header can carry);
    [bytes] are [list byte].  Exceptions are explicit: a computation returns
    an [outcome], and code that reads the clock or touches the collection
    threads a [world]. *)

From Stdlib Require Import NArith ZArith List String Ascii Bool Lia.
From Stdlib.Strings Require Import Byte.
From Stdlib Require Import DecimalString.
Import ListNotations.
Local Open Scope string_scope.
Local Open Scope list_scope.

(** ** SHA-256 and HMAC, as [hashlib.sha256] and [hmac.new] compute them *)

Module Sha256.
Local Open Scope N_scope.

(** 32-bit words are [N] below [2^32]; every operation wraps explicitly. *)
Definition wrap32 (x : N) : N := x mod 2 ^ 32.
Definition plus32 (x y : N) : N := wrap32 (x + y).
Definition ror32 (x k : N) : N :=
  N.lor (N.shiftr x k) (wrap32 (N.shiftl x (32 - k))).
Definition inv32 (x : N) : N := N.lxor x (2 ^ 32 - 1).

Definition choose (e f g : N) : N := N.lxor (N.land e f) (N.land (inv32 e) g).
Definition majority (a b c : N) : N :=
  N.lxor (N.lxor (N.land a b) (N.land a c)) (N.land b c).
Definition big_sigma0 (a : N) : N :=
  N.lxor (N.lxor (ror32 a 2) (ror32 a 13)) (ror32 a 22).
Definition big_sigma1 (e : N) : N :=
  N.lxor (N.lxor (ror32 e 6) (ror32 e 11)) (ror32 e 25).
Definition small_sigma0 (x : N) : N :=
  N.lxor (N.lxor (ror32 x 7) (ror32 x 18)) (N.shiftr x 3).
Definition small_sigma1 (x : N) : N :=
  N.lxor (N.lxor (ror32 x 17) (ror32 x 19)) (N.shiftr x 10).

(** The round constants are the first 32 fractional bits of the cube roots of
    the first 64 primes, the initial state those of the square roots of the
    first 8; they are computed here rather than tabulated. *)
Fixpoint has_divisor (fuel : nat) (d p : N) : bool :=
  match fuel with
  | O => false
  | S fuel' =>
      if p <? d * d then false
      else if p mod d =? 0 then true
      else has_divisor fuel' (d + 1) p
  end.

Definition is_prime (p : N) : bool :=
  (2 <=? p) && negb (has_divisor (N.to_nat p) 2 p).

Definition first_primes (n : nat) : list N :=
  firstn n (filter is_prime (map N.of_nat (seq 0 320))).

Fixpoint cube_root_bits (k : nat) (n r : N) : N :=
  match k with
  | O => r
  | S k' =>
      let c := r + 2 ^ N.of_nat k' in
      cube_root_bits k' n (if c * c * c <=? n then c else r)
  end.

Definition cube_root (n : N) : N := cube_root_bits 40 n 0.

Definition round_constants : list N :=
  Eval vm_compute in
    map (fun p => wrap32 (cube_root (p * 2 ^ 96))) (first_primes 64).

Definition initial_state : list N :=
  Eval vm_compute in
    map (fun p => wrap32 (N.sqrt (p * 2 ^ 64))) (first_primes 8).

(** Big-endian packing. *)
Fixpoint words_of_bytes (l : list N) : list N :=
  match l with
  | b0 :: b1 :: b2 :: b3 :: rest =>
      (b0 * 2 ^ 24 + b1 * 2 ^ 16 + b2 * 2 ^ 8 + b3) :: words_of_bytes rest
  | _ => []
  end.

Definition bytes_of_word (x : N) : list N :=
  [N.shiftr x 24 mod 256; N.shiftr x 16 mod 256; N.shiftr x 8 mod 256; x mod 256].

Definition bytes_of_length (bits : N) : list N :=
  map (fun k => N.shiftr bits (8 * N.of_nat k) mod 256) (rev (seq 0 8)).

(** Message schedule: [recent] holds the words computed so far, newest
    first, so W[t-2], W[t-7], W[t-15], W[t-16] sit at 1, 6, 14, 15. *)
Fixpoint extend_schedule (n : nat) (recent : list N) : list N :=
  match n with
  | O => recent
  | S n' =>
      let wt :=
        plus32 (plus32 (small_sigma1 (nth 1 recent 0)) (nth 6 recent 0))
               (plus32 (small_sigma0 (nth 14 recent 0)) (nth 15 recent 0)) in
      extend_schedule n' (wt :: recent)
  end.

Definition schedule (block : list N) : list N :=
  rev (extend_schedule 48 (rev (words_of_bytes block))).

Record regs := Regs { ra : N; rb : N; rc : N; rd : N; re : N; rf : N; rg : N; rh : N }.

Definition regs_of_list (l : list N) : regs :=
  Regs (nth 0 l 0) (nth 1 l 0) (nth 2 l 0) (nth 3 l 0)
       (nth 4 l 0) (nth 5 l 0) (nth 6 l 0) (nth 7 l 0).

Definition list_of_regs (r : regs) : list N :=
  [ra r; rb r; rc r; rd r; re r; rf r; rg r; rh r].

Definition round (r : regs) (kw : N * N) : regs :=
  let t1 := plus32 (plus32 (plus32 (rh r) (big_sigma1 (re r)))
                           (plus32 (choose (re r) (rf r) (rg r)) (fst kw)))
                   (snd kw) in
  let t2 := plus32 (big_sigma0 (ra r)) (majority (ra r) (rb r) (rc r)) in
  Regs (plus32 t1 t2) (ra r) (rb r) (rc r) (plus32 (rd r) t1) (re r) (rf r) (rg r).

Definition compress (h : list N) (block : list N) : list N :=
  let final := fold_left round (combine round_constants (schedule block)) (regs_of_list h) in
  map (fun p => plus32 (fst p) (snd p)) (combine h (list_of_regs final)).

Definition pad (msg : list N) : list N :=
  let len := N.of_nat (List.length msg) in
  let zeros := (64 - (len + 9) mod 64) mod 64 in
  msg ++ [128] ++ repeat 0 (N.to_nat zeros) ++ bytes_of_length (8 * len).

Fixpoint absorb (fuel : nat) (h : list N) (data : list N) : list N :=
  match fuel with
  | O => h
  | S fuel' =>
      match data with
      | [] => h
      | _ => absorb fuel' (compress h (firstn 64 data)) (skipn 64 data)
      end
  end.

Definition byte_of_N (n : N) : byte :=
  match Byte.of_N n with Some b => b | None => x00 end.

(** [hashlib.sha256(msg).digest()] *)
Definition digest (msg : list byte) : list byte :=
  let data := pad (map Byte.to_N msg) in
  map byte_of_N (flat_map bytes_of_word (absorb (List.length data) initial_state data)).

End Sha256.

Module Hmac.

Definition block_size : nat := 64.

Definition xor_with (c : N) (key : list byte) : list byte :=
  map (fun b => Sha256.byte_of_N (N.lxor (Byte.to_N b) c)) key.

(** [hmac.new(key, msg, hashlib.sha256).digest()]: a key longer than the
    block is hashed first, then zero-padded to the block size. *)
Definition digest (key msg : list byte) : list byte :=
  let k0 := if Nat.ltb block_size (List.length key) then Sha256.digest key else key in
  let k := k0 ++ repeat x00 (block_size - List.length k0) in
  Sha256.digest (xor_with 0x5c k ++ Sha256.digest (xor_with 0x36 k ++ msg)).

Definition hex_digit (n : N) : ascii :=
  ascii_of_N (if N.ltb n 10 then 48 + n else 87 + n).

Definition hex_of_byte (b : byte) : list ascii :=
  let n := Byte.to_N b in
  [hex_digit (N.shiftr n 4); hex_digit (N.land n 15)].

(** [bytes.hex()]: two lowercase digits per byte. *)
Definition hex (bs : list byte) : string :=
  string_of_list_ascii (flat_map hex_of_byte bs).

(** [hmac.new(key, msg, hashlib.sha256).hexdigest()] *)
Definition hexdigest (key msg : list byte) : string := hex (digest key msg).

End Hmac.

(** ** Python values and the library functions the receiver calls *)

Module Py.

(** A naive [datetime]: the fields [datetime.utcnow()] returns. *)
Record datetime := Datetime {
  year : nat; month : nat; day : nat;
  hour : nat; minute : nat; second : nat; microsecond : nat
}.

(** The objects that flow through the receiver: what [json.loads] can
    produce, plus the [datetime] and [ObjectId] the receiver and the driver
    add.  A float is carried as its [repr], which identifies it. *)
#[warnings="-register-all"]
Inductive value :=
| VNone
| VBool (b : bool)
| VInt (n : Z)
| VFloat (repr : string)
| VStr (s : string)
| VList (items : list value)
| VDict (entries : list (string * value))
| VDatetime (t : datetime)
| VObjectId (oid : list byte).

(** A [dict] with [str] keys, in insertion order. *)
Definition dict := list (string * value).

Inductive exn :=
| AttributeError
| TypeError
| ValueError (msg : string)
| HTTPException (code : nat)
| PyMongoError
| UnicodeEncodeError
| OverflowError
| OSError.

Inductive outcome (A : Type) :=
| Return (a : A)
| Raise (e : exn).
Arguments Return {A} a.
Arguments Raise {A} e.

Definition obind {A B} (o : outcome A) (k : A -> outcome B) : outcome B :=
  match o with
  | Return a => k a
  | Raise e => Raise e
  end.

(** *** dict *)

Fixpoint lookup (k : string) (d : dict) : option value :=
  match d with
  | [] => None
  | (k', v) :: rest => if String.eqb k k' then Some v else lookup k rest
  end.

(** [k in d] *)
Definition contains (d : dict) (k : string) : bool :=
  match lookup k d with Some _ => true | None => false end.

(** [d[k] = v] *)
Fixpoint setitem (d : dict) (k : string) (v : value) : dict :=
  match d with
  | [] => [(k, v)]
  | (k', v') :: rest =>
      if String.eqb k k' then (k', v) :: rest else (k', v') :: setitem rest k v
  end.

(** [obj.get(k, default)]: only a dict has [get]. *)
Definition get (obj : value) (k : string) (default : value) : outcome value :=
  match obj with
  | VDict d => Return (match lookup k d with Some v => v | None => default end)
  | _ => Raise AttributeError
  end.

(** *** truth value and equality with a str *)

Definition truthy (v : value) : bool :=
  match v with
  | VNone => false
  | VBool b => b
  | VInt n => negb (n =? 0)%Z
  | VFloat r => negb (String.eqb r "0.0" || String.eqb r "-0.0")
  | VStr s => negb (String.eqb s "")
  | VList l => match l with [] => false | _ => true end
  | VDict d => match d with [] => false | _ => true end
  | VDatetime _ => true
  | VObjectId _ => true
  end.

(** [v == s] for a str literal [s] *)
Definition eq_str (v : value) (s : string) : bool :=
  match v with
  | VStr s' => String.eqb s' s
  | _ => false
  end.

(** [isinstance(v, str)] *)
Definition is_str (v : value) : bool :=
  match v with
  | VStr _ => true
  | _ => false
  end.

(** *** str methods *)

(** [s.split(sep)] for a one-character separator. *)
Fixpoint split (sep : ascii) (s : string) : list string :=
  match s with
  | EmptyString => [EmptyString]
  | String c rest =>
      if Ascii.eqb c sep then EmptyString :: split sep rest
      else match split sep rest with
           | piece :: pieces => String c piece :: pieces
           | [] => [String c EmptyString]
           end
  end.

(** [ref.startswith(p)]: only a str has [startswith]. *)
Definition startswith (v : value) (p : string) : outcome bool :=
  match v with
  | VStr s => Return (String.prefix p s)
  | _ => Raise AttributeError
  end.

(** [v.split(sep)[-1]] *)
Definition split_last (v : value) (sep : ascii) : outcome value :=
  match v with
  | VStr s => Return (VStr (last (split sep s) EmptyString))
  | _ => Raise AttributeError
  end.

Definition code (c : ascii) : N := N_of_ascii c.

Definition is_ascii (s : string) : bool :=
  forallb (fun c => (code c <? 128)%N) (list_ascii_of_string s).

(** [s.encode('utf-8')] on code points below 256. *)
Definition utf8_of_char (c : ascii) : list byte :=
  if (code c <? 128)%N then [byte_of_ascii c]
  else [Sha256.byte_of_N (192 + code c / 64); Sha256.byte_of_N (128 + code c mod 64)].

Definition encode_utf8 (s : string) : list byte :=
  flat_map utf8_of_char (list_ascii_of_string s).

(** [hmac.compare_digest(a, b)] on two str: non-ASCII text is a TypeError. *)
Definition compare_digest (a b : string) : outcome bool :=
  if is_ascii a && is_ascii b then Return (String.eqb a b) else Raise TypeError.

(** *** str() and repr(), as f-strings apply them *)

Definition decimal_of_nat (n : nat) : string :=
  NilZero.string_of_uint (Nat.to_uint n).

Definition decimal_of_Z (n : Z) : string :=
  NilZero.string_of_int (Z.to_int n).

Definition string_of_chars (l : list ascii) : string := string_of_list_ascii l.

(** ["%0<width>d" % n] *)
Definition zero_pad (width : nat) (n : nat) : string :=
  let digits := decimal_of_nat n in
  (string_of_chars (repeat "0"%char (width - String.length digits)) ++ digits)%string.

Definition date_part (t : datetime) : string :=
  (zero_pad 4 (year t) ++ "-" ++ zero_pad 2 (month t) ++ "-" ++ zero_pad 2 (day t))%string.

Definition time_part (t : datetime) : string :=
  (zero_pad 2 (hour t) ++ ":" ++ zero_pad 2 (minute t) ++ ":" ++ zero_pad 2 (second t)
   ++ match microsecond t with
      | O => EmptyString
      | us => "." ++ zero_pad 6 us
      end)%string.

(** [t.isoformat()] *)
Definition isoformat (t : datetime) : string :=
  (date_part t ++ "T" ++ time_part t)%string.

(** [repr(t)]: trailing zero seconds and microseconds are dropped. *)
Definition repr_datetime (t : datetime) : string :=
  let head := [year t; month t; day t; hour t; minute t] in
  let tail :=
    match microsecond t with
    | O => match second t with O => [] | sec => [sec] end
    | us => [second t; us]
    end in
  ("datetime.datetime(" ++ String.concat ", " (map decimal_of_nat (head ++ tail)%list)
   ++ ")")%string.

Definition dquote : ascii := ascii_of_N 34.
Definition squote : ascii := ascii_of_N 39.
Definition backslash : ascii := ascii_of_N 92.

Definition mem_char (c : ascii) (s : string) : bool :=
  existsb (Ascii.eqb c) (list_ascii_of_string s).

(** [s.count(c)] for a one-character [c]. *)
Fixpoint count_char (c : ascii) (s : string) : nat :=
  match s with
  | EmptyString => 0
  | String c' rest => (if Ascii.eqb c' c then 1 else 0) + count_char c rest
  end.

(** [str.isprintable] on one code point below 256. *)
Definition printable (c : ascii) : bool :=
  let n := code c in
  ((32 <=? n) && (n <? 127) || (161 <=? n) && negb (n =? 173))%N.

Definition escape_char (quote c : ascii) : list ascii :=
  if Ascii.eqb c quote || Ascii.eqb c backslash then [backslash; c]
  else if (code c =? 9)%N then [backslash; "t"%char]
  else if (code c =? 10)%N then [backslash; "n"%char]
  else if (code c =? 13)%N then [backslash; "r"%char]
  else if printable c then [c]
  else [backslash; "x"%char; Hmac.hex_digit (code c / 16); Hmac.hex_digit (code c mod 16)].

(** [repr(s)] for a str: single quotes unless the text has a single quote
    and no double quote. *)
Definition repr_str (s : string) : string :=
  let quote := if mem_char squote s && negb (mem_char dquote s) then dquote else squote in
  string_of_chars
    (quote :: flat_map (escape_char quote) (list_ascii_of_string s) ++ [quote]).

Fixpoint repr (v : value) : string :=
  match v with
  | VNone => "None"
  | VBool true => "True"
  | VBool false => "False"
  | VInt n => decimal_of_Z n
  | VFloat r => r
  | VStr s => repr_str s
  | VList items => ("[" ++ String.concat ", " (map repr items) ++ "]")%string
  | VDict entries =>
      ("{" ++ String.concat ", "
                (map (fun kv => (repr_str (fst kv) ++ ": " ++ repr (snd kv))%string) entries)
           ++ "}")%string
  | VDatetime t => repr_datetime t
  | VObjectId oid => ("ObjectId('" ++ Hmac.hex oid ++ "')")%string
  end.

(** [str(v)], which is what [f"{v}"] inserts. *)
Definition str (v : value) : string :=
  match v with
  | VStr s => s
  | VDatetime t => (date_part t ++ " " ++ time_part t)%string
  | VObjectId oid => Hmac.hex oid
  | _ => repr v
  end.

End Py.

Import Py.

(** ** The world the receiver runs in *)

(** A str as [os.getenv] returns it.  The bytes of the variable are decoded
    with surrogateescape, so bytes that are not UTF-8 come out as lone
    surrogates: such a str is not empty, and [encode('utf-8')] refuses
    it. *)
Inductive env_str :=
| Text (s : string)
| Surrogates.

(** [bool(s)] *)
Definition env_truthy (s : env_str) : bool :=
  match s with
  | Text s => negb (String.eqb s "")
  | Surrogates => true
  end.

(** [s.encode('utf-8')] *)
Definition encode (s : env_str) : outcome (list byte) :=
  match s with
  | Text s => Return (encode_utf8 s)
  | Surrogates => Raise UnicodeEncodeError
  end.

(** The process environment, the clock ([utcnow_at w k] is what the [k]-th
    call of [datetime.utcnow()] returns), and the MongoDB collection with the
    server behind it: [server_accepts] says whether [insert_one] of a document
    succeeds, [fresh_oid] is the driver's ObjectId generator. *)
Record world := World {
  environ : string -> option env_str;
  utcnow_at : nat -> datetime;
  clock_reads : nat;
  collection : list dict;
  server_accepts : dict -> bool;
  fresh_oid : nat -> list byte
}.

Definition tick (w : world) : world :=
  World (environ w) (utcnow_at w) (S (clock_reads w)) (collection w)
        (server_accepts w) (fresh_oid w).

Definition store (w : world) (doc : dict) : world :=
  World (environ w) (utcnow_at w) (clock_reads w) (collection w ++ [doc])
        (server_accepts w) (fresh_oid w).

(** Computations that may raise and may change the world. *)
Definition M (A : Type) : Type := world -> outcome A * world.

Definition ret {A} (a : A) : M A := fun w => (Return a, w).

Definition bind {A B} (m : M A) (k : A -> M B) : M B :=
  fun w =>
    match m w with
    | (Return a, w') => k a w'
    | (Raise e, w') => (Raise e, w')
    end.

Definition lift {A} (o : outcome A) : M A := fun w => (o, w).

Definition raise {A} (e : exn) : M A := fun w => (Raise e, w).

(** [try: body  except Exception as e: handler(e)]; every [exn] of the model
    is an [Exception]. *)
Definition try_except {A} (body : M A) (handler : exn -> M A) : M A :=
  fun w =>
    match body w with
    | (Return a, w') => (Return a, w')
    | (Raise e, w') => handler e w'
    end.

Declare Scope py_scope.
Delimit Scope py_scope with py.
Notation "x <- m ;; k" := (bind m (fun x => k))
  (at level 61, m at next level, right associativity) : py_scope.
Local Open Scope py_scope.

(** [datetime.utcnow()] *)
Definition utcnow : M datetime :=
  fun w => (Return (utcnow_at w (clock_reads w)), tick w).

(** [os.getenv(name, default)] *)
Definition getenv (name : string) (default : env_str) : M env_str :=
  fun w => (Return (match environ w name with Some v => v | None => default end), w).

(** [collection.insert_one(doc)]: the driver adds an [_id] when the document
    has none, the server stores the document or the call raises. *)
Definition insert_one (doc : dict) : M value :=
  fun w =>
    let doc' :=
      if contains doc "_id" then doc
      else setitem doc "_id" (VObjectId (fresh_oid w (List.length (collection w)))) in
    if server_accepts w doc' then
      (Return (match lookup "_id" doc' with Some v => v | None => VNone end), store w doc')
    else (Raise PyMongoError, w).

(** ** models/repository_data.py *)

Module RepositoryData.

Inductive pytype := StrType.

Definition type_name (t : pytype) : string :=
  match t with StrType => "str" end.

Definition isinstance (v : value) (t : pytype) : bool :=
  match t with StrType => is_str v end.

(** The [required_fields] dict of [validate_repository_data], in insertion
    order. *)
Definition required_fields : list (string * pytype) :=
  [("author", StrType); ("pushed_to", StrType); ("on", StrType); ("sample", StrType)].

Fixpoint validate_fields (fields : list (string * pytype)) (data : dict) : bool * string :=
  match fields with
  | [] => (true, "Valid")
  | (field, expected_type) :: rest =>
      match lookup field data with
      | None => (false, ("Missing required field: " ++ field)%string)
      | Some v =>
          if isinstance v expected_type then validate_fields rest data
          else (false, ("Field " ++ field ++ " must be of type "
                        ++ type_name expected_type)%string)
      end
  end.

Definition validate_repository_data (data : dict) : bool * string :=
  validate_fields required_fields data.

Fixpoint require_fields (fields : list string) (data : dict) : M unit :=
  match fields with
  | [] => ret tt
  | field :: rest =>
      if contains data field then require_fields rest data
      else raise (ValueError ("Missing required field: " ++ field)%string)
  end.

(** [RepositoryDataModel.insert_repository_data]: the inserted id, or [None]
    when anything inside raised. *)
Definition insert_repository_data (data : dict) : M (option value) :=
  try_except
    (data1 <- (if contains data "timestamp" then ret data
               else now <- utcnow ;; ret (setitem data "timestamp" (VDatetime now))) ;;
     _ <- require_fields ["author"; "pushed_to"; "on"; "sample"] data1 ;;
     inserted_id <- insert_one data1 ;;
     ret (Some inserted_id))
    (fun _ => ret None).

End RepositoryData.

(** ** webhook_receiver.py *)

Module WebhookReceiver.
Import RepositoryData.

Definition verify_signature (payload_body : list byte) (signature_header : option string)
  : M bool :=
  match signature_header with
  | None => ret false
  | Some header =>
      if String.eqb header "" then ret false
      else
        secret <- getenv "GITHUB_WEBHOOK_SECRET" (Text "") ;;
        if negb (env_truthy secret) then ret true
        else
          key <- lift (encode secret) ;;
          let expected_signature :=
            ("sha256=" ++ Hmac.hexdigest key payload_body)%string in
          lift (compare_digest expected_signature header)
  end.

(** Line 50: [ref.split('/')[-1] if ref.startswith('refs/heads/') else ref]. *)
Definition branch_of_ref (ref : value) : outcome value :=
  obind (startswith ref "refs/heads/") (fun has_prefix =>
  if has_prefix then split_last ref "/"%char else Return ref).

Definition now_iso_z : M value :=
  now <- utcnow ;; ret (VStr (isoformat now ++ "Z")%string).

Definition extract_push_data (payload : value) : M (option dict) :=
  try_except
    (pusher <- lift (get payload "pusher" (VDict [])) ;;
     author0 <- lift (get pusher "name" (VStr "unknown")) ;;
     author <- (if negb (truthy author0) || eq_str author0 "unknown" then
                  head_commit <- lift (get payload "head_commit" (VDict [])) ;;
                  commit_author <- lift (get head_commit "author" (VDict [])) ;;
                  lift (get commit_author "name" (VStr "unknown"))
                else ret author0) ;;
     repo <- lift (get payload "repository" (VDict [])) ;;
     repository <- lift (get repo "name" (VStr "unknown")) ;;
     ref <- lift (get payload "ref" (VStr "refs/heads/main")) ;;
     branch <- lift (branch_of_ref ref) ;;
     let pushed_to := (str repository ++ ":" ++ str branch)%string in
     head_commit <- lift (get payload "head_commit" (VDict [])) ;;
     timestamp0 <- lift (get head_commit "timestamp" VNone) ;;
     timestamp_str <- (if negb (truthy timestamp0) then now_iso_z else ret timestamp0) ;;
     head_commit <- lift (get payload "head_commit" (VDict [])) ;;
     sample <- lift (get head_commit "message" (VStr "No commit message")) ;;
     now <- utcnow ;;
     ret (Some [("author", author); ("pushed_to", VStr pushed_to); ("on", timestamp_str);
                ("timestamp", VDatetime now); ("sample", sample)]))
    (fun _ => ret None).

Definition extract_pull_request_data (payload : value) : M (option dict) :=
  try_except
    (action <- lift (get payload "action" (VStr "unknown")) ;;
     pr <- lift (get payload "pull_request" (VDict [])) ;;
     user <- lift (get pr "user" (VDict [])) ;;
     author <- lift (get user "login" (VStr "unknown")) ;;
     repo <- lift (get payload "repository" (VDict [])) ;;
     repository <- lift (get repo "name" (VStr "unknown")) ;;
     base <- lift (get pr "base" (VDict [])) ;;
     base_branch <- lift (get base "ref" (VStr "main")) ;;
     head <- lift (get pr "head" (VDict [])) ;;
     head_branch <- lift (get head "ref" (VStr "unknown")) ;;
     let pushed_to := (str repository ++ ":" ++ str base_branch)%string in
     created_at <- lift (get pr "created_at" VNone) ;;
     timestamp0 <- (if truthy created_at then ret created_at
                    else lift (get pr "updated_at" VNone)) ;;
     timestamp_str <- (if negb (truthy timestamp0) then now_iso_z else ret timestamp0) ;;
     number <- lift (get pr "number" (VStr "unknown")) ;;
     title <- lift (get pr "title" (VStr "No title")) ;;
     let sample := ("PR #" ++ str number ++ ": " ++ str title
                    ++ " (" ++ str action ++ ")")%string in
     now <- utcnow ;;
     ret (Some [("author", author); ("pushed_to", VStr pushed_to); ("on", timestamp_str);
                ("timestamp", VDatetime now); ("sample", VStr sample)]))
    (fun _ => ret None).

(** What the handler reads off Flask's [request]: the two headers it asks
    for, the raw body, and what [request.get_json()] does. *)
Record request := Request {
  x_hub_signature_256 : option string;
  x_github_event : option string;
  data : list byte;
  get_json : outcome value
}.

(** [jsonify(body), status] *)
Record response := Response {
  body : dict;
  status : nat
}.

Definition error (msg : string) (code : nat) : response :=
  Response [("error", VStr msg)] code.

Definition header_value (h : option string) : value :=
  match h with Some s => VStr s | None => VNone end.

(** Lines 129-148 of [handle_webhook]: what happens to the extractor's
    result [data]. *)
Definition validate_and_store (event_type : value) (data : option dict) : M response :=
  match data with
  | None | Some [] => ret (error "Failed to extract data from payload" 400)
  | Some record =>
      let (is_valid, message) := validate_repository_data record in
      if negb is_valid then ret (error ("Invalid data: " ++ message)%string 400)
      else
        result_id <- insert_repository_data record ;;
        match result_id with
        | Some id =>
            if truthy id then
              ret (Response [("message", VStr "Webhook processed successfully");
                             ("id", VStr (str id));
                             ("event_type", event_type)] 200)
            else ret (error "Failed to store data" 500)
        | None => ret (error "Failed to store data" 500)
        end
  end.

Definition handle_webhook (req : request) : M response :=
  try_except
    (let signature := x_hub_signature_256 req in
     verified <- verify_signature (data req) signature ;;
     if negb verified then ret (error "Invalid signature" 401)
     else
       let event_type := header_value (x_github_event req) in
       payload <- lift (get_json req) ;;
       if negb (truthy payload) then ret (error "No payload received" 400)
       else if eq_str event_type "push" then
         extracted <- extract_push_data payload ;;
         validate_and_store event_type extracted
       else if eq_str event_type "pull_request" then
         extracted <- extract_pull_request_data payload ;;
         validate_and_store event_type extracted
       else
         ret (Response
                [("message",
                  VStr ("Event type " ++ str event_type ++ " not supported")%string)]
                200))
    (fun _ => ret (error "Internal server error" 500)).

End WebhookReceiver.

Import RepositoryData WebhookReceiver.

(** ** Concrete worlds and requests used in the examples below *)

(** The bytes literal [b"..."]. *)
Definition bytes_of (s : string) : list byte := list_byte_of_string s.

(** No secret in the environment, a clock that advances one second per
    reading, an empty collection, a server that accepts every document. *)
Definition quiet_world : world :=
  World (fun _ => None)
        (fun k => Datetime 2024 1 1 12 0 k 0)
        0 [] (fun _ => true)
        (fun k => repeat x00 11 ++ [Sha256.byte_of_N (N.of_nat k)]).

Definition with_secret (secret : string) (w : world) : world :=
  World (fun name => if String.eqb name "GITHUB_WEBHOOK_SECRET" then Some (Text secret)
                     else environ w name)
        (utcnow_at w) (clock_reads w) (collection w) (server_accepts w) (fresh_oid w).

Definition push_payload (ref repository pusher : string) (commit : dict) : value :=
  VDict [("ref", VStr ref);
         ("repository", VDict [("name", VStr repository)]);
         ("pusher", VDict [("name", VStr pusher)]);
         ("head_commit", VDict commit)].

(** A delivery with a signature header, and one without.  The raw body is
    only read by the verifier; [get_json] is what Flask parsed. *)
Definition signed_request (event : string) (payload : value) : request :=
  Request (Some "sha256=unchecked") (Some event) (bytes_of "{}") (Return payload).

Definition unsigned_request (event : string) (payload : value) : request :=
  Request None (Some event) (bytes_of "{}") (Return payload).

(** The payload [create_test_push_payload] of test_system.py builds, with a
    fixed timestamp. *)
Definition test_push_payload : value :=
  VDict [("ref", VStr "refs/heads/main");
         ("repository", VDict [("name", VStr "test-repo");
                               ("full_name", VStr "testuser/test-repo")]);
         ("pusher", VDict [("name", VStr "test_user")]);
         ("head_commit",
          VDict [("id", VStr "abc123def456");
                 ("message", VStr "Test commit for system validation");
                 ("timestamp", VStr "2024-01-01T00:00:00Z");
                 ("author", VDict [("name", VStr "test_user");
                                   ("email", VStr "test@example.com")])])].




(** The author rule of lines 43-45, as a relation between what
    [pusher.name] gave and the author that is kept. *)
Definition author_rule (payload author0 author : value) : Prop :=
  (negb (truthy author0) || eq_str author0 "unknown" = true /\
   exists head_commit commit_author,
     get payload "head_commit" (VDict []) = Return head_commit /\
     get head_commit "author" (VDict []) = Return commit_author /\
     get commit_author "name" (VStr "unknown") = Return author)
  \/ (negb (truthy author0) || eq_str author0 "unknown" = false /\ author = author0).

(** ** webhook_receiver.py: the /recent route *)

Module RecentRoute.

(** [type(v).__name__] of a value that came out of the driver, which
    decodes an integer outside 32 bits as [bson.int64.Int64]. *)
Definition class_name (v : value) : string :=
  match v with
  | VNone => "NoneType"
  | VBool _ => "bool"
  | VInt n => if ((-2147483648 <=? n) && (n <=? 2147483647))%Z then "int" else "Int64"
  | VFloat _ => "float"
  | VStr _ => "str"
  | VList _ => "list"
  | VDict _ => "dict"
  | VDatetime _ => "datetime"
  | VObjectId _ => "ObjectId"
  end.

(** What can go wrong inside the route's [try]. *)
Inductive failure :=
| KeyError (key : string)
| NoAttribute (v : value) (attribute : string)
| NotSerializable.

(** [str(e)] *)
Definition message (f : failure) : string :=
  match f with
  | KeyError key => repr_str key
  | NoAttribute v attribute =>
      ("'" ++ class_name v ++ "' object has no attribute '" ++ attribute ++ "'")%string
  | NotSerializable => "Object of type ObjectId is not JSON serializable"
  end.

(** Lines 168-170, for one item. *)
Definition convert_item (item : dict) : failure + dict :=
  match lookup "_id" item with
  | None => inl (KeyError "_id")
  | Some id =>
      let item1 := setitem item "_id" (VStr (str id)) in
      match lookup "timestamp" item1 with
      | None => inr item1
      | Some (VDatetime t) => inr (setitem item1 "timestamp" (VStr (isoformat t)))
      | Some v => inl (NoAttribute v "isoformat")
      end
  end.

Fixpoint convert_items (data : list dict) : failure + list dict :=
  match data with
  | [] => inr []
  | item :: rest =>
      match convert_item item with
      | inl f => inl f
      | inr item' =>
          match convert_items rest with
          | inl f => inl f
          | inr rest' => inr (item' :: rest')
          end
      end
  end.

(** What [jsonify] can encode: everything but an ObjectId (a datetime is
    written as an HTTP date). *)
Fixpoint jsonable (v : value) : bool :=
  match v with
  | VObjectId _ => false
  | VList items => forallb jsonable items
  | VDict entries => forallb (fun kv => jsonable (snd kv)) entries
  | _ => true
  end.

(** The route [get_recent_data], given [found], what
    [repo_model.get_recent_data(limit)] returned (it never raises). *)
Definition get_recent_data (found : list dict) : response :=
  match convert_items found with
  | inl f => error (message f) 500
  | inr data =>
      if forallb jsonable (map VDict data) then
        Response [("data", VList (map VDict data));
                  ("count", VInt (Z.of_nat (List.length data)))] 200
      else error (message NotSerializable) 500
  end.

End RecentRoute.

(** ** database/connection.py: MongoDBConnection.connect *)

Module Connection.

(** How one attempt ends: [MongoClient(...)] raises, or the client is built
    and the ping raises, or the ping answers.  [Retryable] stands for
    ConnectionFailure and ServerSelectionTimeoutError, [Fatal] for any other
    Exception. *)
Inductive failure := Retryable | Fatal.

Inductive attempt :=
| ClientRaises (f : failure)
| PingRaises (f : failure)
| PingOk.

(** The singleton: [_client] (the client built by the attempt of that
    number), the attempts made so far, and the arguments of [time.sleep]. *)
Record state := State {
  client : option nat;
  attempts : nat;
  slept : list Z
}.

Definition initial : state := State None 0 [].

Section Server.

(** The deployment: how the [k]-th attempt ever made ends, and whether the
    operating system refuses to sleep for a given number of seconds. *)
Variable server : nat -> attempt.
Variable os_refuses : Z -> bool.

(** [time.sleep(secs)] for an int, [None] when it returns.  CPython turns
    the delay into a 64-bit count of nanoseconds (OverflowError when it does
    not fit), refuses a negative one (ValueError) and then asks the operating
    system, which may refuse a delay it finds too long (OSError); POSIX
    requires it to accept one of up to 31 days. *)
Definition sleep (secs : Z) : option exn :=
  if ((secs <? -9223372036) || (9223372036 <? secs))%Z then Some OverflowError
  else if (secs <? 0)%Z then Some (ValueError "sleep length must be non-negative")
  else if ((2678400 <? secs)%Z && os_refuses secs)%bool then Some OSError
  else None.

(** The body of the [for] loop, [iterations] rounds from [attempt_no] on. *)
Fixpoint connect_loop (iterations : nat) (attempt_no max_retries retry_delay : Z)
         (st : state) : outcome bool * state :=
  match iterations with
  | O => (Return false, st)
  | S iterations' =>
      let k := attempts st in
      let retry (st1 : state) :=
        if (attempt_no <? max_retries - 1)%Z then
          match sleep retry_delay with
          | Some e => (Raise e, st1)
          | None =>
              connect_loop iterations' (attempt_no + 1)%Z max_retries retry_delay
                           (State (client st1) (attempts st1) (slept st1 ++ [retry_delay]))
          end
        else (Return false, st1) in
      match server k with
      | ClientRaises Fatal => (Return false, State (client st) (S k) (slept st))
      | ClientRaises Retryable => retry (State (client st) (S k) (slept st))
      | PingRaises Fatal => (Return false, State (Some k) (S k) (slept st))
      | PingRaises Retryable => retry (State (Some k) (S k) (slept st))
      | PingOk => (Return true, State (Some k) (S k) (slept st))
      end
  end.

(** [connect(max_retries, retry_delay)] *)
Definition connect (max_retries retry_delay : Z) (st : state) : outcome bool * state :=
  connect_loop (Z.to_nat max_retries) 0 max_retries retry_delay st.

(** [get_client()]: connects, with the defaults, only when there is no
    client yet. *)
Definition get_client (st : state) : outcome (option nat) * state :=
  match client st with
  | Some c => (Return (Some c), st)
  | None =>
      match connect 3 2 st with
      | (Return _, st') => (Return (client st'), st')
      | (Raise e, st') => (Raise e, st')
      end
  end.

End Server.




End Connection.

(** ** Which payloads the extractors accept *)

(** [payload.get(k, {})] can be followed by another [.get] exactly when the
    entry is absent or a dict; [ref] must be absent or a str. *)
Definition dict_or_absent (o : option value) : bool :=
  match o with
  | None | Some (VDict _) => true
  | Some _ => false
  end.

Definition str_or_absent (o : option value) : bool :=
  match o with
  | None | Some (VStr _) => true
  | Some _ => false
  end.

(** [o.get(k)] when [o] is an entry that may be absent. *)
Definition sub (o : option value) (k : string) : option value :=
  match o with
  | Some (VDict d) => lookup k d
  | _ => None
  end.

Definition or_default (o : option value) (default : value) : value :=
  match o with Some v => v | None => default end.

(** Whether lines 44-45 replace the pusher name. *)
Definition needs_fallback (author0 : value) : bool :=
  negb (truthy author0) || eq_str author0 "unknown".

Definition push_extractable (payload : value) : bool :=
  match payload with
  | VDict d =>
      dict_or_absent (lookup "pusher" d)
      && dict_or_absent (lookup "head_commit" d)
      && dict_or_absent (lookup "repository" d)
      && str_or_absent (lookup "ref" d)
      && (if needs_fallback (or_default (sub (lookup "pusher" d) "name") (VStr "unknown"))
          then dict_or_absent (sub (lookup "head_commit" d) "author")
          else true)
  | _ => false
  end.

Definition pull_request_extractable (payload : value) : bool :=
  match payload with
  | VDict d =>
      dict_or_absent (lookup "pull_request" d)
      && dict_or_absent (sub (lookup "pull_request" d) "user")
      && dict_or_absent (lookup "repository" d)
      && dict_or_absent (sub (lookup "pull_request" d) "base")
      && dict_or_absent (sub (lookup "pull_request" d) "head")
  | _ => false
  end.

(** [n] readings of the clock. *)
Fixpoint ticks (n : nat) (w : world) : world :=
  match n with
  | O => w
  | S n' => tick (ticks n' w)
  end.

(** The answer of [handle_webhook] on its success path, for the ObjectId
    the driver generated. *)
Definition success (event_type : value) (oid : list byte) : response :=
  Response [("message", VStr "Webhook processed successfully");
            ("id", VStr (Hmac.hex oid));
            ("event_type", event_type)] 200.

(** The document the driver sends for an extracted record: the record with
    the generated [_id] appended. *)
Definition document_of (record : dict) (w : world) : dict :=
  setitem record "_id" (VObjectId (fresh_oid w (List.length (collection w)))).

(** * Properties *)

(** ** The monad and the verifier's frame *)

Ltac run_in H :=
  unfold try_except, bind, lift, ret, raise in H;
  cbn beta iota zeta in H;
  repeat
    (match type of H with
     | context [match get ?o ?k ?d with _ => _ end] =>
         let E := fresh "Eget" in destruct (get o k d) eqn:E
     | context [match branch_of_ref ?r with _ => _ end] =>
         let E := fresh "Ebranch" in destruct (branch_of_ref r) eqn:E
     | context [if ?b then _ else _] =>
         let E := fresh "Eif" in destruct b eqn:E
     end;
     cbn beta iota zeta in H;
     try discriminate H).

Lemma verify_signature_frame (payload_body : list byte) (header : option string) (w : world) :
  snd (verify_signature payload_body header w) = w.
Proof.
  unfold verify_signature.
  destruct header as [h|]; [|reflexivity].
  destruct (String.eqb h ""); [reflexivity|].
  unfold bind, getenv, lift, ret.
  destruct (environ w "GITHUB_WEBHOOK_SECRET") as [[secret|]|]; cbn;
    try destruct (String.eqb secret ""); reflexivity.
Qed.

Lemma append_not_empty_r (s t : string) : t <> "" -> (s ++ t)%string <> "".
Proof.
  intros Ht. destruct s; cbn; [assumption | discriminate].
Qed.

Lemma truthy_VStr (s : string) : truthy (VStr s) = true <-> s <> "".
Proof.
  cbn. destruct (String.eqb_spec s ""); cbn; split; congruence.
Qed.

Lemma truthy_now_iso_z (t : datetime) : truthy (VStr (isoformat t ++ "Z")) = true.
Proof.
  apply truthy_VStr, append_not_empty_r. discriminate.
Qed.

Lemma extract_push_data_inv (payload : value) (w w' : world) (record : dict) :
  extract_push_data payload w = (Return (Some record), w') ->
  exists pusher author0 author repo repository ref branch head_commit timestamp_str sample now,
    get payload "pusher" (VDict []) = Return pusher /\
    get pusher "name" (VStr "unknown") = Return author0 /\
    author_rule payload author0 author /\
    get payload "repository" (VDict []) = Return repo /\
    get repo "name" (VStr "unknown") = Return repository /\
    get payload "ref" (VStr "refs/heads/main") = Return ref /\
    branch_of_ref ref = Return branch /\
    get payload "head_commit" (VDict []) = Return head_commit /\
    get head_commit "message" (VStr "No commit message") = Return sample /\
    truthy timestamp_str = true /\
    collection w' = collection w /\
    record = [("author", author);
              ("pushed_to", VStr (str repository ++ ":" ++ str branch)%string);
              ("on", timestamp_str); ("timestamp", VDatetime now); ("sample", sample)].
Proof.
  unfold extract_push_data, now_iso_z, utcnow. intros H.
  run_in H.
  all: injection H as <- <-.
  all: do 11 eexists.
  all: repeat match goal with |- _ /\ _ => split end.
  all: try reflexivity; try eassumption.
  all: try apply truthy_now_iso_z.
  all: try (apply negb_false_iff; assumption).
  all: solve [ left; split; [assumption | eauto]
             | right; split; [assumption | reflexivity] ].
Qed.

Lemma extract_pull_request_data_inv (payload : value) (w w' : world) (record : dict) :
  extract_pull_request_data payload w = (Return (Some record), w') ->
  exists action pr user author repo repository base base_branch timestamp_str number title now,
    get payload "action" (VStr "unknown") = Return action /\
    get payload "pull_request" (VDict []) = Return pr /\
    get pr "user" (VDict []) = Return user /\
    get user "login" (VStr "unknown") = Return author /\
    get payload "repository" (VDict []) = Return repo /\
    get repo "name" (VStr "unknown") = Return repository /\
    get pr "base" (VDict []) = Return base /\
    get base "ref" (VStr "main") = Return base_branch /\
    get pr "number" (VStr "unknown") = Return number /\
    get pr "title" (VStr "No title") = Return title /\
    truthy timestamp_str = true /\
    collection w' = collection w /\
    record = [("author", author);
              ("pushed_to", VStr (str repository ++ ":" ++ str base_branch)%string);
              ("on", timestamp_str); ("timestamp", VDatetime now);
              ("sample", VStr ("PR #" ++ str number ++ ": " ++ str title
                               ++ " (" ++ str action ++ ")")%string)].
Proof.
  unfold extract_pull_request_data, now_iso_z, utcnow. intros H.
  run_in H.
  all: injection H as <- <-.
  all: do 12 eexists.
  all: repeat match goal with |- _ /\ _ => split end.
  all: try reflexivity; try eassumption.
  all: try apply truthy_now_iso_z.
  all: try (apply negb_false_iff; assumption).
Qed.

Lemma verify_signature_fst_snd (payload_body : list byte) (header : option string)
      (w : world) (b : bool) :
  fst (verify_signature payload_body header w) = Return b ->
  verify_signature payload_body header w = (Return b, w).
Proof.
  intros H. pose proof (verify_signature_frame payload_body header w) as Hw.
  destruct (verify_signature payload_body header w) as [o w1].
  cbn in H, Hw. congruence.
Qed.

(** C7: an event type other than push and pull_request, on a request that
    passes the verifier and carries a truthy JSON payload, is answered with
    status 200 and leaves the whole world as it was: the collection is not
    touched and the clock is not even read, so no extractor, validator or
    insert has run. *)
Theorem unsupported_event_acknowledged (req : request) (w : world) (payload : value) :
  fst (verify_signature (data req) (x_hub_signature_256 req) w) = Return true ->
  get_json req = Return payload ->
  truthy payload = true ->
  x_github_event req <> Some "push" ->
  x_github_event req <> Some "pull_request" ->
  handle_webhook req w =
    (Return (Response
               [("message",
                 VStr ("Event type " ++ str (header_value (x_github_event req))
                       ++ " not supported")%string)]
               200),
     w).
Proof.
  intros Hsig Hjson Htruthy Hpush Hpr.
  apply verify_signature_fst_snd in Hsig.
  unfold handle_webhook, try_except, bind, lift, ret.
  rewrite Hsig, Hjson. cbn beta iota zeta. rewrite Htruthy. cbn [negb].
  assert (Epush : eq_str (header_value (x_github_event req)) "push" = false).
  { destruct (x_github_event req) as [e|]; [|reflexivity]. cbn.
    destruct (String.eqb_spec e "push"); [subst; congruence | reflexivity]. }
  assert (Epr : eq_str (header_value (x_github_event req)) "pull_request" = false).
  { destruct (x_github_event req) as [e|]; [|reflexivity]. cbn.
    destruct (String.eqb_spec e "pull_request"); [subst; congruence | reflexivity]. }
  rewrite Epush, Epr. reflexivity.
Qed.

Lemma unsupported_event_acknowledged_witness :
  handle_webhook (signed_request "issues" (VDict [("action", VStr "opened")])) quiet_world =
    (Return (Response [("message", VStr "Event type issues not supported")] 200),
     quiet_world).
Proof.
  apply (unsupported_event_acknowledged
           (signed_request "issues" (VDict [("action", VStr "opened")]))
           quiet_world (VDict [("action", VStr "opened")]));
    solve [ reflexivity | discriminate ].
Defined.

Lemma extract_push_data_returns (payload : value) (w : world) :
  exists result w', extract_push_data payload w = (Return result, w').
Proof.
  unfold extract_push_data, try_except.
  match goal with
  | |- context [match ?b with _ => _ end] => destruct b as [[a | e] w1]
  end; unfold ret; eauto.
Qed.

Lemma extract_pull_request_data_returns (payload : value) (w : world) :
  exists result w', extract_pull_request_data payload w = (Return result, w').
Proof.
  unfold extract_pull_request_data, try_except.
  match goal with
  | |- context [match ?b with _ => _ end] => destruct b as [[a | e] w1]
  end; unfold ret; eauto.
Qed.

(** C6: both extractors return on every payload and in every world, either a
    record with the five fields or None; no exception leaves them. *)
Theorem extractors_never_raise (payload : value) (w : world) :
  (exists result w',
      extract_push_data payload w = (Return result, w') /\
      (result = None \/
       exists record, result = Some record /\
         map fst record = ["author"; "pushed_to"; "on"; "timestamp"; "sample"]))
  /\
  (exists result w',
      extract_pull_request_data payload w = (Return result, w') /\
      (result = None \/
       exists record, result = Some record /\
         map fst record = ["author"; "pushed_to"; "on"; "timestamp"; "sample"])).
Proof.
  split.
  - destruct (extract_push_data_returns payload w) as (result & w' & Hrun). exists result, w'. split; [assumption|].
    destruct result as [record|]; [right | left; reflexivity].
    apply extract_push_data_inv in Hrun.
    destruct Hrun as (? & ? & ? & ? & ? & ? & ? & ? & ? & ? & ? & Hrun).
    exists record. split; [reflexivity|].
    repeat match type of Hrun with _ /\ _ => destruct Hrun as [_ Hrun] end.
    subst record. reflexivity.
  - destruct (extract_pull_request_data_returns payload w) as (result & w' & Hrun). exists result, w'. split; [assumption|].
    destruct result as [record|]; [right | left; reflexivity].
    apply extract_pull_request_data_inv in Hrun.
    destruct Hrun as (? & ? & ? & ? & ? & ? & ? & ? & ? & ? & ? & ? & Hrun).
    exists record. split; [reflexivity|].
    repeat match type of Hrun with _ /\ _ => destruct Hrun as [_ Hrun] end.
    subst record. reflexivity.
Qed.

(** A payload that is not a dict makes the body raise AttributeError, which
    the extractor turns into None. *)
Example extract_push_data_list :
  fst (extract_push_data (VList [VInt 1]) quiet_world) = Return None.
Proof. reflexivity. Qed.

Example extract_pull_request_data_null_user :
  fst (extract_pull_request_data
         (VDict [("pull_request", VDict [("user", VNone)])]) quiet_world) = Return None.
Proof. reflexivity. Qed.

(** ** The verifier without a secret (C1) *)

Lemma verify_signature_absent_header (payload_body : list byte) (w : world) :
  verify_signature payload_body None w = (Return false, w) /\
  verify_signature payload_body (Some "") w = (Return false, w).
Proof. split; reflexivity. Qed.

Lemma verify_signature_no_secret (payload_body : list byte) (header : string) (w : world) :
  header <> "" ->
  environ w "GITHUB_WEBHOOK_SECRET" = None \/
  environ w "GITHUB_WEBHOOK_SECRET" = Some (Text "") ->
  verify_signature payload_body (Some header) w = (Return true, w).
Proof.
  intros Hheader Hsecret. unfold verify_signature, bind, getenv, ret.
  destruct (String.eqb_spec header ""); [contradiction|].
  destruct Hsecret as [-> | ->]; reflexivity.
Qed.

(** C1, at the failing input: with no secret in the environment the verifier
    still answers False when the signature header is absent, and the request
    that test_system.py posts (no signature header, expecting 200) is
    answered 401 and stores nothing. *)
Theorem absent_header_rejected_without_secret :
  environ quiet_world "GITHUB_WEBHOOK_SECRET" = None /\
  verify_signature (bytes_of "{}") None quiet_world = (Return false, quiet_world) /\
  fst (handle_webhook (unsigned_request "push" test_push_payload) quiet_world)
    = Return (error "Invalid signature" 401) /\
  collection (snd (handle_webhook (unsigned_request "push" test_push_payload) quiet_world))
    = [].
Proof. repeat split. Qed.

(** ** The branch of a ref (C2) *)

Lemma split_not_nil (sep : ascii) (s : string) : split sep s <> [].
Proof.
  destruct s as [|c s]; cbn; [discriminate|].
  destruct (Ascii.eqb c sep); [discriminate|].
  destruct (split sep s); discriminate.
Qed.

Lemma split_no_separator (sep : ascii) (s : string) :
  mem_char sep s = false -> split sep s = [s].
Proof.
  unfold mem_char. induction s as [|c s IH]; cbn; [reflexivity|].
  intros H. apply orb_false_iff in H. destruct H as [Hc Hs].
  rewrite Ascii.eqb_sym, Hc, (IH Hs). reflexivity.
Qed.

Lemma last_cons_not_nil {A} (a d : A) (l : list A) : l <> [] -> last (a :: l) d = last l d.
Proof. destruct l; [contradiction | reflexivity]. Qed.

Lemma prefix_append (p x : string) : String.prefix p (p ++ x) = true.
Proof.
  induction p as [|c p IH]; cbn.
  - destruct x; reflexivity.
  - destruct (ascii_dec c c); [apply IH | contradiction].
Qed.

Lemma branch_of_ref_not_prefixed (ref : string) :
  String.prefix "refs/heads/" ref = false ->
  branch_of_ref (VStr ref) = Return (VStr ref).
Proof.
  intros H. unfold branch_of_ref, startswith, obind. rewrite H. reflexivity.
Qed.

Lemma branch_of_ref_prefixed (x : string) :
  branch_of_ref (VStr ("refs/heads/" ++ x)) = Return (VStr (last (split "/" x) "")).
Proof.
  unfold branch_of_ref, startswith, split_last, obind.
  rewrite prefix_append.
  change (split "/" ("refs/heads/" ++ x)) with ("refs" :: "heads" :: split "/" x).
  rewrite !last_cons_not_nil; [reflexivity | apply split_not_nil | discriminate].
Qed.

Lemma branch_of_ref_flat (x : string) :
  mem_char "/" x = false ->
  branch_of_ref (VStr ("refs/heads/" ++ x)) = Return (VStr x).
Proof.
  intros H. rewrite branch_of_ref_prefixed, (split_no_separator _ _ H). reflexivity.
Qed.

(** C2, at the failing input: for [refs/heads/feature/login] the branch is
    [login], not [feature/login], and so is the stored [pushed_to]. *)
Theorem branch_keeps_last_segment_only :
  branch_of_ref (VStr "refs/heads/feature/login") = Return (VStr "login") /\
  fst (extract_push_data
         (push_payload "refs/heads/feature/login" "r" "u"
                       [("message", VStr "m"); ("timestamp", VStr "2024-01-01T00:00:00Z")])
         quiet_world)
  = Return (Some [("author", VStr "u"); ("pushed_to", VStr "r:login");
                  ("on", VStr "2024-01-01T00:00:00Z");
                  ("timestamp", VDatetime (Datetime 2024 1 1 12 0 0 0));
                  ("sample", VStr "m")]).
Proof. split; reflexivity. Qed.

(** ** The author fallback (C10) *)

(** C10: when [pusher.name] is present and is the empty string, the author
    is taken from [head_commit.author.name]: the extractor returns a record
    whose author is that name, and it returns None only when the repository
    entry is not a dict or the ref is not a str; it never raises. *)
Theorem empty_pusher_name_falls_back
        (entries pusher head_commit commit_author : dict) (A : string) (w : world) :
  lookup "pusher" entries = Some (VDict pusher) ->
  lookup "name" pusher = Some (VStr "") ->
  lookup "head_commit" entries = Some (VDict head_commit) ->
  lookup "author" head_commit = Some (VDict commit_author) ->
  lookup "name" commit_author = Some (VStr A) ->
  match fst (extract_push_data (VDict entries) w) with
  | Return (Some record) => lookup "author" record = Some (VStr A)
  | Return None =>
      (exists v, lookup "repository" entries = Some v /\ forall d, v <> VDict d) \/
      (exists v, lookup "ref" entries = Some v /\ is_str v = false)
  | Raise _ => False
  end.
Proof.
  intros Hpusher Hname Hcommit Hauthor Hcname.
  unfold extract_push_data, try_except, bind, lift, ret, now_iso_z, utcnow.
  cbn [get]. rewrite Hpusher. cbn [get]. rewrite Hname.
  cbn [truthy eq_str negb orb String.eqb]. cbn beta iota zeta.
  rewrite Hcommit. cbn [get]. rewrite Hauthor. cbn [get]. rewrite Hcname.
  cbn beta iota zeta.
  destruct (lookup "repository" entries) as [[] |] eqn:Erepo;
    cbn [get]; cbn beta iota zeta; cbn [fst];
    try (left; eexists; split; [reflexivity | intros d; discriminate]).
  all: destruct (lookup "ref" entries) as [[] |] eqn:Eref;
    unfold branch_of_ref, startswith, split_last, obind; cbn beta iota zeta; cbn [fst];
    try (right; eexists; split; reflexivity).
  all: destruct (String.prefix _ _); cbn beta iota zeta.
  all: destruct (negb (truthy _)); unfold bind, ret; cbn beta iota zeta; cbn [fst].
  all: reflexivity.
Qed.

Lemma empty_pusher_name_falls_back_witness :
  fst (extract_push_data
         (push_payload "refs/heads/main" "r" ""
                       [("message", VStr "m"); ("author", VDict [("name", VStr "A")])])
         quiet_world)
  = Return (Some [("author", VStr "A"); ("pushed_to", VStr "r:main");
                  ("on", VStr "2024-01-01T12:00:00Z");
                  ("timestamp", VDatetime (Datetime 2024 1 1 12 0 1 0));
                  ("sample", VStr "m")])
  /\ lookup "author" [("author", VStr "A"); ("pushed_to", VStr "r:main");
                      ("on", VStr "2024-01-01T12:00:00Z");
                      ("timestamp", VDatetime (Datetime 2024 1 1 12 0 1 0));
                      ("sample", VStr "m")] = Some (VStr "A").
Proof.
  split; [reflexivity|].
  exact (empty_pusher_name_falls_back
           [("ref", VStr "refs/heads/main");
            ("repository", VDict [("name", VStr "r")]);
            ("pusher", VDict [("name", VStr "")]);
            ("head_commit", VDict [("message", VStr "m");
                                   ("author", VDict [("name", VStr "A")])])]
           [("name", VStr "")]
           [("message", VStr "m"); ("author", VDict [("name", VStr "A")])]
           [("name", VStr "A")] "A" quiet_world
           eq_refl eq_refl eq_refl eq_refl eq_refl).
Defined.

(** ** The validator (C5) *)

Lemma validate_fields_step (field : string) (rest : list (string * pytype)) (data : dict) :
  validate_fields ((field, StrType) :: rest) data =
  match lookup field data with
  | None => (false, ("Missing required field: " ++ field)%string)
  | Some (VStr _) => validate_fields rest data
  | Some _ => (false, ("Field " ++ field ++ " must be of type str")%string)
  end.
Proof.
  cbn [validate_fields]. destruct (lookup field data) as [[]|]; reflexivity.
Qed.

Lemma validate_fields_skip (before : list string) (rest : list (string * pytype))
      (data : dict) :
  (forall f, In f before -> exists s, lookup f data = Some (VStr s)) ->
  validate_fields (map (fun f => (f, StrType)) before ++ rest) data
  = validate_fields rest data.
Proof.
  induction before as [|f before IH]; intros Hok; [reflexivity|].
  cbn [map app]. rewrite validate_fields_step.
  destruct (Hok f (or_introl eq_refl)) as [s ->].
  apply IH. intros g Hg. apply Hok. right. exact Hg.
Qed.

(** C5: the fields are checked in the order author, pushed_to, on, sample,
    and a record is rejected with the reason that names the first field, in
    that order, that is missing or is not a str. *)
Theorem validator_names_first_bad_field
        (data : dict) (before after : list string) (field : string) :
  ["author"; "pushed_to"; "on"; "sample"] = before ++ field :: after ->
  (forall f, In f before -> exists s, lookup f data = Some (VStr s)) ->
  (forall s, lookup field data <> Some (VStr s)) ->
  validate_repository_data data =
    (false,
     match lookup field data with
     | None => "Missing required field: " ++ field
     | Some _ => "Field " ++ field ++ " must be of type str"
     end)%string.
Proof.
  intros Horder Hbefore Hbad.
  unfold validate_repository_data.
  replace required_fields
    with (map (fun f => (f, StrType)) before
          ++ (field, StrType) :: map (fun f => (f, StrType)) after).
  - rewrite (validate_fields_skip before _ data Hbefore), validate_fields_step.
    destruct (lookup field data) as [[]|]; try reflexivity.
    exfalso. eapply Hbad. reflexivity.
  - change ((field, StrType) :: map (fun f => (f, StrType)) after)
      with (map (fun f => (f, StrType)) (field :: after)).
    rewrite <- map_app, <- Horder. reflexivity.
Qed.

(** A record whose [on] is an integer, the other fields being strings, is
    rejected with the reason that names [on]. *)
Lemma validator_names_first_bad_field_witness :
  validate_repository_data
    [("author", VStr "u"); ("pushed_to", VStr "r:main"); ("on", VInt 1704067200);
     ("sample", VStr "m")]
  = (false, "Field on must be of type str").
Proof.
  apply (validator_names_first_bad_field
           [("author", VStr "u"); ("pushed_to", VStr "r:main"); ("on", VInt 1704067200);
            ("sample", VStr "m")]
           ["author"; "pushed_to"] ["sample"] "on").
  - reflexivity.
  - intros f [<- | [<- | []]]; eexists; reflexivity.
  - intros s; discriminate.
Defined.

Lemma validator_accepts_iff (data : dict) :
  fst (validate_repository_data data) = true <->
  forall f, In f ["author"; "pushed_to"; "on"; "sample"] ->
            exists s, lookup f data = Some (VStr s).
Proof.
  unfold validate_repository_data, required_fields. split.
  - rewrite !validate_fields_step.
    destruct (lookup "author" data) as [[]|] eqn:E1; try discriminate.
    destruct (lookup "pushed_to" data) as [[]|] eqn:E2; try discriminate.
    destruct (lookup "on" data) as [[]|] eqn:E3; try discriminate.
    destruct (lookup "sample" data) as [[]|] eqn:E4; try discriminate.
    intros _ f [<- | [<- | [<- | [<- | []]]]]; eauto.
  - intros H.
    change [("author", StrType); ("pushed_to", StrType); ("on", StrType); ("sample", StrType)]
      with (map (fun f => (f, StrType)) ["author"; "pushed_to"; "on"; "sample"] ++ []).
    rewrite (validate_fields_skip _ [] data H). reflexivity.
Qed.

Lemma validator_accepts_message (data : dict) :
  fst (validate_repository_data data) = true ->
  validate_repository_data data = (true, "Valid").
Proof.
  intros H. pose proof (proj1 (validator_accepts_iff data) H) as Hall.
  unfold validate_repository_data, required_fields.
  change [("author", StrType); ("pushed_to", StrType); ("on", StrType); ("sample", StrType)]
    with (map (fun f => (f, StrType)) ["author"; "pushed_to"; "on"; "sample"] ++ []).
  rewrite (validate_fields_skip _ [] data Hall). reflexivity.
Qed.

(** Every record is either accepted or has a first bad field. *)
Lemma validator_verdict (data : dict) :
  validate_repository_data data = (true, "Valid") \/
  exists before field after,
    ["author"; "pushed_to"; "on"; "sample"] = before ++ field :: after /\
    (forall f, In f before -> exists s, lookup f data = Some (VStr s)) /\
    (forall s, lookup field data <> Some (VStr s)).
Proof.
  destruct (fst (validate_repository_data data)) eqn:E.
  - left. apply validator_accepts_message. exact E.
  - right.
    assert (Hstr : forall f, (exists s, lookup f data = Some (VStr s)) \/
                             (forall s, lookup f data <> Some (VStr s))).
    { intros f. destruct (lookup f data) as [[]|]; eauto; right; intros; discriminate. }
    destruct (Hstr "author") as [Ha | Ha]; [|exists [], "author"; eexists; cbn; intuition].
    destruct (Hstr "pushed_to") as [Hp | Hp];
      [|exists ["author"], "pushed_to"; eexists; split; [reflexivity|];
        split; [intros f [<- | []]; assumption | assumption]].
    destruct (Hstr "on") as [Ho | Ho];
      [|exists ["author"; "pushed_to"], "on"; eexists; split; [reflexivity|];
        split; [intros f [<- | [<- | []]]; assumption | assumption]].
    destruct (Hstr "sample") as [Hs | Hs];
      [|exists ["author"; "pushed_to"; "on"], "sample"; eexists; split; [reflexivity|];
        split; [intros f [<- | [<- | [<- | []]]]; assumption | assumption]].
    exfalso.
    assert (Hall : fst (validate_repository_data data) = true).
    { apply validator_accepts_iff. intros f [<- | [<- | [<- | [<- | []]]]]; assumption. }
    congruence.
Qed.

Lemma validator_rejects_non_str_on (data : dict) (v : value) :
  lookup "on" data = Some v -> is_str v = false ->
  fst (validate_repository_data data) = false.
Proof.
  intros Hon Hv. destruct (fst (validate_repository_data data)) eqn:E; [|reflexivity].
  destruct (proj1 (validator_accepts_iff data) E "on") as [s Hs]; [cbn; auto|].
  rewrite Hs in Hon. injection Hon as <-. discriminate Hv.
Qed.


(** ** The verifier with a secret (C4) *)

Lemma is_ascii_of_chars (l : list ascii) :
  is_ascii (string_of_list_ascii l) = forallb (fun c => (code c <? 128)%N) l.
Proof.
  unfold is_ascii. rewrite list_ascii_of_string_of_list_ascii. reflexivity.
Qed.

Lemma hex_of_byte_ascii (b : byte) :
  forallb (fun c => (code c <? 128)%N) (Hmac.hex_of_byte b) = true.
Proof. destruct b; reflexivity. Qed.

Lemma hex_is_ascii (bs : list byte) : is_ascii (Hmac.hex bs) = true.
Proof.
  unfold Hmac.hex. rewrite is_ascii_of_chars.
  induction bs as [|b bs IH]; [reflexivity|].
  cbn [flat_map]. rewrite forallb_app, hex_of_byte_ascii, IH. reflexivity.
Qed.

Lemma is_ascii_append (s t : string) :
  is_ascii (s ++ t) = is_ascii s && is_ascii t.
Proof.
  unfold is_ascii. induction s as [|c s IH]; [reflexivity|].
  cbn [append list_ascii_of_string forallb]. rewrite IH, andb_assoc. reflexivity.
Qed.

Lemma expected_signature_ascii (key msg : list byte) :
  is_ascii ("sha256=" ++ Hmac.hexdigest key msg) = true.
Proof.
  rewrite is_ascii_append. unfold Hmac.hexdigest. rewrite hex_is_ascii. reflexivity.
Qed.

Section ConfiguredSecret.

Variable w : world.
Variable secret : string.
Hypothesis secret_configured : environ w "GITHUB_WEBHOOK_SECRET" = Some (Text secret).
Hypothesis secret_not_empty : secret <> "".

Lemma verify_signature_configured (payload_body : list byte) (header : string) :
  header <> "" ->
  verify_signature payload_body (Some header) w =
    (compare_digest ("sha256=" ++ Hmac.hexdigest (encode_utf8 secret) payload_body) header,
     w).
Proof.
  intros Hheader. unfold verify_signature, bind, getenv, lift, ret.
  destruct (String.eqb_spec header ""); [contradiction|].
  rewrite secret_configured. cbn [env_truthy encode].
  destruct (String.eqb_spec secret ""); [contradiction|].
  reflexivity.
Qed.

(** C4: with a secret configured and a signature header present, the
    verifier returns True exactly when the header is [sha256=] followed by
    the lowercase hex HMAC-SHA256 of the raw body under the secret.  For a
    header computed over another body it returns False as soon as the two
    MACs differ. *)
Theorem verify_signature_exact_match (payload_body original_body : list byte)
        (header : string) :
  let expected body := ("sha256=" ++ Hmac.hexdigest (encode_utf8 secret) body)%string in
  (verify_signature payload_body (Some header) w = (Return true, w)
   <-> header = expected payload_body)
  /\
  (expected payload_body <> expected original_body ->
   verify_signature payload_body (Some (expected original_body)) w = (Return false, w)).
Proof.
  intros expected.
  assert (Hascii : forall body, is_ascii (expected body) = true)
    by (intros; apply expected_signature_ascii).
  assert (Hne : forall body, expected body <> "") by (intros; discriminate).
  assert (Hrun : forall body h, h <> "" ->
            verify_signature body (Some h) w = (compare_digest (expected body) h, w))
    by (intros; apply verify_signature_configured; assumption).
  clearbody expected. split.
  - destruct (String.eqb_spec header "") as [-> | Hheader].
    + split; [discriminate | intros H; symmetry in H; contradiction (Hne _ H)].
    + rewrite (Hrun _ _ Hheader). unfold compare_digest. split.
      * intros H.
        destruct (is_ascii (expected payload_body) && is_ascii header); [|discriminate].
        assert (E : String.eqb (expected payload_body) header = true) by congruence.
        apply String.eqb_eq in E. congruence.
      * intros ->. rewrite Hascii, String.eqb_refl. reflexivity.
  - intros Hdiff. rewrite (Hrun _ _ (Hne original_body)).
    unfold compare_digest. rewrite !Hascii. cbn [andb].
    destruct (String.eqb_spec (expected payload_body) (expected original_body));
      [contradiction | reflexivity].
Qed.

End ConfiguredSecret.

(** A header with a character outside ASCII makes [compare_digest] raise;
    [handle_webhook] then answers 500. *)
Example verify_signature_non_ascii_header :
  fst (verify_signature (bytes_of "{}") (Some (String (ascii_of_N 233) EmptyString))
                        (with_secret "key" quiet_world))
  = Raise TypeError.
Proof. vm_compute. reflexivity. Qed.

Example hmac_sha256_known_answer :
  Hmac.hexdigest (bytes_of "key") (bytes_of "The quick brown fox jumps over the lazy dog")
  = "f7bc83f430538424b13298e6aa6fb143ef4d59a14946175997479dbc2d1a3cd8".
Proof. vm_compute. reflexivity. Qed.

Example sha256_known_answer :
  Hmac.hex (Sha256.digest (bytes_of "abc"))
  = "ba7816bf8f01cfea414140de5dae2223b00361a396177a9cb410ff61f20015ad".
Proof. vm_compute. reflexivity. Qed.

Example hmac_sha256_long_key :
  Hmac.hexdigest (repeat xaa 131)
                 (bytes_of "Test Using Larger Than Block-Size Key - Hash Key First")
  = "60e431591ee0b67f0d8a26aacbf5b77f8e0bc6213728c5140546040f0ee37f54".
Proof. vm_compute. reflexivity. Qed.

(** With the secret [key]: the signature of a body is accepted for that body
    and rejected for a body that differs in its last letter. *)
Lemma verify_signature_exact_match_witness :
  (verify_signature (bytes_of "The quick brown fox jumps over the lazy dog")
     (Some "sha256=f7bc83f430538424b13298e6aa6fb143ef4d59a14946175997479dbc2d1a3cd8")
     (with_secret "key" quiet_world)
   = (Return true, with_secret "key" quiet_world))
  /\
  (verify_signature (bytes_of "The quick brown fox jumps over the lazy cog")
     (Some "sha256=f7bc83f430538424b13298e6aa6fb143ef4d59a14946175997479dbc2d1a3cd8")
     (with_secret "key" quiet_world)
   = (Return false, with_secret "key" quiet_world)).
Proof.
  split.
  - apply (proj1 (verify_signature_exact_match
                    (with_secret "key" quiet_world) "key" eq_refl ltac:(discriminate)
                    (bytes_of "The quick brown fox jumps over the lazy dog")
                    (bytes_of "The quick brown fox jumps over the lazy dog")
                    "sha256=f7bc83f430538424b13298e6aa6fb143ef4d59a14946175997479dbc2d1a3cd8")).
    vm_compute. reflexivity.
  - change "sha256=f7bc83f430538424b13298e6aa6fb143ef4d59a14946175997479dbc2d1a3cd8"
      with (String.append "sha256="
              "f7bc83f430538424b13298e6aa6fb143ef4d59a14946175997479dbc2d1a3cd8").
    rewrite <- hmac_sha256_known_answer.
    apply (proj2 (verify_signature_exact_match
                    (with_secret "key" quiet_world) "key" eq_refl ltac:(discriminate)
                    (bytes_of "The quick brown fox jumps over the lazy cog")
                    (bytes_of "The quick brown fox jumps over the lazy dog")
                    EmptyString)).
    vm_compute. discriminate.
Defined.

(** ** The colons of [pushed_to] (C9) *)

Lemma count_char_append (c : ascii) (s t : string) :
  count_char c (s ++ t) = count_char c s + count_char c t.
Proof.
  induction s as [|c' s IH]; [reflexivity|].
  cbn [append count_char]. rewrite IH. lia.
Qed.

(** C9 as stated fails: a repository name with a colon in it is extracted
    normally and gives a [pushed_to] with two colons. *)
Lemma one_colon_counterexample :
  fst (extract_push_data
         (push_payload "refs/heads/main" "a:b" "u"
                       [("message", VStr "m"); ("timestamp", VStr "2024-01-01T00:00:00Z")])
         quiet_world)
  = Return (Some [("author", VStr "u"); ("pushed_to", VStr "a:b:main");
                  ("on", VStr "2024-01-01T00:00:00Z");
                  ("timestamp", VDatetime (Datetime 2024 1 1 12 0 0 0));
                  ("sample", VStr "m")])
  /\ count_char ":" "a:b:main" = 2.
Proof. split; reflexivity. Qed.

(** C9, amended: when the repository name and the branch are extracted as
    strings, [pushed_to] is the name, one colon and the branch; it holds
    exactly one colon if and only if neither of the two holds one. *)
Theorem pushed_to_one_separator
        (payload : value) (w w' : world) (record : dict) (repository branch : string) :
  obind (get payload "repository" (VDict [])) (fun repo => get repo "name" (VStr "unknown"))
    = Return (VStr repository) ->
  (extract_push_data payload w = (Return (Some record), w') /\
   obind (get payload "ref" (VStr "refs/heads/main")) branch_of_ref = Return (VStr branch))
  \/
  (extract_pull_request_data payload w = (Return (Some record), w') /\
   obind (get payload "pull_request" (VDict [])) (fun pr =>
   obind (get pr "base" (VDict [])) (fun base => get base "ref" (VStr "main")))
     = Return (VStr branch)) ->
  lookup "pushed_to" record = Some (VStr (repository ++ ":" ++ branch)) /\
  (count_char ":" (repository ++ ":" ++ branch) = 1 <->
   count_char ":" repository = 0 /\ count_char ":" branch = 0).
Proof.
  intros Hrepo Hrun. split.
  - destruct Hrun as [[Hrun Hbranch] | [Hrun Hbranch]].
    + apply extract_push_data_inv in Hrun.
      destruct Hrun as (pusher & author0 & author & repo & repository' & ref & branch'
                        & head_commit & timestamp_str & sample & now
                        & _ & _ & _ & Grepo & Gname & Gref & Gbranch & _ & _ & _ & _ & ->).
      rewrite Grepo in Hrepo. cbn [obind] in Hrepo. rewrite Gname in Hrepo.
      rewrite Gref in Hbranch. cbn [obind] in Hbranch. rewrite Gbranch in Hbranch.
      injection Hrepo as ->. injection Hbranch as ->. reflexivity.
    + apply extract_pull_request_data_inv in Hrun.
      destruct Hrun as (action & pr & user & author & repo & repository' & base & base_branch
                        & timestamp_str & number & title & now
                        & _ & Gpr & _ & _ & Grepo & Gname & Gbase & Gref & _ & _ & _ & _ & ->).
      rewrite Grepo in Hrepo. cbn [obind] in Hrepo. rewrite Gname in Hrepo.
      rewrite Gpr in Hbranch. cbn [obind] in Hbranch. rewrite Gbase in Hbranch.
      cbn [obind] in Hbranch. rewrite Gref in Hbranch.
      injection Hrepo as ->. injection Hbranch as ->. reflexivity.
  - rewrite !count_char_append. change (count_char ":" ":") with 1. lia.
Qed.

Lemma pushed_to_one_separator_witness :
  lookup "pushed_to"
         [("author", VStr "test_user"); ("pushed_to", VStr "test-repo:main");
          ("on", VStr "2024-01-01T00:00:00Z");
          ("timestamp", VDatetime (Datetime 2024 1 1 12 0 0 0));
          ("sample", VStr "Test commit for system validation")]
  = Some (VStr "test-repo:main")
  /\ (count_char ":" "test-repo:main" = 1 <->
      count_char ":" "test-repo" = 0 /\ count_char ":" "main" = 0).
Proof.
  apply (pushed_to_one_separator test_push_payload quiet_world (tick quiet_world)
           _ "test-repo" "main").
  - reflexivity.
  - left. split; reflexivity.
Defined.

(** ** What reaches the collection (C3, C8) *)

Lemma lookup_setitem_other (d : dict) (k f : string) (v : value) :
  f <> k -> lookup f (setitem d k v) = lookup f d.
Proof.
  intros Hneq. induction d as [|[k' v'] d IH]; cbn [setitem lookup].
  - destruct (String.eqb_spec f k); [contradiction | reflexivity].
  - destruct (String.eqb_spec k k') as [<- | Hk]; cbn [lookup].
    + destruct (String.eqb_spec f k); [contradiction | reflexivity].
    + destruct (String.eqb f k'); [reflexivity | exact IH].
Qed.

Lemma insert_one_effect (doc : dict) (w : world) :
  collection (snd (insert_one doc w)) = collection w \/
  exists stored,
    collection (snd (insert_one doc w)) = collection w ++ [stored] /\
    forall f, f <> "_id" -> lookup f stored = lookup f doc.
Proof.
  unfold insert_one.
  destruct (contains doc "_id");
    match goal with |- context [server_accepts w ?d] => destruct (server_accepts w d) end;
    cbn [snd store collection]; auto; right; eexists; split; try reflexivity.
  intros f Hf. apply lookup_setitem_other. exact Hf.
Qed.

Lemma require_fields_frame (fields : list string) (data : dict) (w : world) :
  snd (require_fields fields data w) = w.
Proof.
  induction fields as [|f fields IH]; cbn [require_fields]; [reflexivity|].
  destruct (contains data f); [exact IH | reflexivity].
Qed.

Lemma insert_repository_data_effect (data : dict) (w : world) :
  (exists result, fst (insert_repository_data data w) = Return result) /\
  (collection (snd (insert_repository_data data w)) = collection w \/
   exists stored,
     collection (snd (insert_repository_data data w)) = collection w ++ [stored] /\
     forall f, f <> "_id" -> f <> "timestamp" -> lookup f stored = lookup f data).
Proof.
  unfold insert_repository_data, try_except, bind, ret, utcnow.
  destruct (contains data "timestamp"); cbn beta iota zeta.
  - pose proof (require_fields_frame ["author"; "pushed_to"; "on"; "sample"] data w) as Hw.
    destruct (require_fields _ data w) as [[[]|e] w1]; cbn [snd] in Hw; subst w1;
      cbn beta iota zeta; [|split; [cbn [fst]; eauto | left; reflexivity]].
    pose proof (insert_one_effect data w) as Hins.
    destruct (insert_one data w) as [[id|e] w2]; cbn [fst snd] in *;
      (split; [cbn [fst]; eauto|]);
      (destruct Hins as [Hsame | (stored & Hstored & Hfields)];
       [left; exact Hsame | right; exists stored; split; [exact Hstored | auto]]).
  - set (data1 := setitem data "timestamp" _).
    pose proof (require_fields_frame ["author"; "pushed_to"; "on"; "sample"] data1 (tick w))
      as Hw.
    destruct (require_fields _ data1 (tick w)) as [[[]|e] w1]; cbn [snd] in Hw; subst w1;
      cbn beta iota zeta; [|split; [cbn [fst]; eauto | left; reflexivity]].
    pose proof (insert_one_effect data1 (tick w)) as Hins.
    destruct (insert_one data1 (tick w)) as [[id|e] w2]; cbn [fst snd] in *;
      (split; [cbn [fst]; eauto|]);
      (destruct Hins as [Hsame | (stored & Hstored & Hfields)];
       [left; exact Hsame | right; exists stored; split; [exact Hstored |]]).
    all: intros f Hid Hts; rewrite (Hfields f Hid); apply lookup_setitem_other; exact Hts.
Qed.

Lemma validate_and_store_effect (event_type : value) (extracted : option dict) (w : world) :
  (exists answer, fst (validate_and_store event_type extracted w) = Return answer) /\
  (collection (snd (validate_and_store event_type extracted w)) = collection w \/
   exists record stored,
     extracted = Some record /\
     fst (validate_repository_data record) = true /\
     collection (snd (validate_and_store event_type extracted w)) = collection w ++ [stored] /\
     forall f, f <> "_id" -> f <> "timestamp" -> lookup f stored = lookup f record).
Proof.
  unfold validate_and_store.
  destruct extracted as [[|entry record]|];
    try (split; [cbn [fst ret]; eauto | left; reflexivity]).
  set (full := entry :: record).
  destruct (validate_repository_data full) as [is_valid message] eqn:Evalid.
  destruct is_valid; cbn [negb];
    [| split; [cbn [fst ret]; eauto | left; reflexivity]].
  unfold bind.
  pose proof (insert_repository_data_effect full w) as [[result Hresult] Heffect].
  destruct (insert_repository_data full w) as [[inserted|e] w1]; cbn [fst snd] in *;
    [| discriminate Hresult].
  assert (Hanswer : exists answer,
             fst (match inserted with
                  | Some id =>
                      if truthy id
                      then ret (Response [("message", VStr "Webhook processed successfully");
                                          ("id", VStr (str id));
                                          ("event_type", event_type)] 200)
                      else ret (error "Failed to store data" 500)
                  | None => ret (error "Failed to store data" 500)
                  end w1) = Return answer
             /\ snd (match inserted with
                     | Some id =>
                         if truthy id
                         then ret (Response [("message", VStr "Webhook processed successfully");
                                             ("id", VStr (str id));
                                             ("event_type", event_type)] 200)
                         else ret (error "Failed to store data" 500)
                     | None => ret (error "Failed to store data" 500)
                     end w1) = w1).
  { destruct inserted as [id|]; [destruct (truthy id)|]; cbn [fst snd ret]; eauto. }
  destruct Hanswer as (answer & Hfst & Hsnd). rewrite Hsnd.
  split; [eauto|].
  destruct Heffect as [Hsame | (stored & Hstored & Hfields)]; [left; exact Hsame|].
  right. exists full, stored. rewrite Evalid. auto.
Qed.

Lemma extract_push_data_frame (payload : value) (w : world) :
  collection (snd (extract_push_data payload w)) = collection w.
Proof.
  destruct (extract_push_data payload w) as [result w1] eqn:H.
  unfold extract_push_data, now_iso_z, utcnow in H. run_in H.
  all: injection H as _ <-; reflexivity.
Qed.

Lemma extract_pull_request_data_frame (payload : value) (w : world) :
  collection (snd (extract_pull_request_data payload w)) = collection w.
Proof.
  destruct (extract_pull_request_data payload w) as [result w1] eqn:H.
  unfold extract_pull_request_data, now_iso_z, utcnow in H. run_in H.
  all: injection H as _ <-; reflexivity.
Qed.




Lemma lookup_some_not_nil (k : string) (d : dict) (v : value) :
  lookup k d = Some v -> truthy (VDict d) = true.
Proof. destruct d; [discriminate | reflexivity]. Qed.

(** Behind the verifier the pipeline does what C8 describes: a push
    delivery that passes the verifier, whose payload has
    ref refs/heads/main, repository.name r, pusher.name u,
    head_commit.message m and head_commit.timestamp 2024-01-01T00:00:00Z,
    is answered 200 and appends exactly one document to the collection, with
    author u, pushed_to r:main, on 2024-01-01T00:00:00Z and sample m (plus
    the receipt timestamp and the generated _id), when the server accepts the
    insert. *)
Theorem push_end_to_end
        (req : request) (w : world) (entries repository pusher head_commit : dict) :
  fst (verify_signature (data req) (x_hub_signature_256 req) w) = Return true ->
  x_github_event req = Some "push" ->
  get_json req = Return (VDict entries) ->
  lookup "ref" entries = Some (VStr "refs/heads/main") ->
  lookup "repository" entries = Some (VDict repository) ->
  lookup "name" repository = Some (VStr "r") ->
  lookup "pusher" entries = Some (VDict pusher) ->
  lookup "name" pusher = Some (VStr "u") ->
  lookup "head_commit" entries = Some (VDict head_commit) ->
  lookup "message" head_commit = Some (VStr "m") ->
  lookup "timestamp" head_commit = Some (VStr "2024-01-01T00:00:00Z") ->
  (forall doc, server_accepts w doc = true) ->
  let oid := fresh_oid w (List.length (collection w)) in
  fst (handle_webhook req w)
  = Return (Response [("message", VStr "Webhook processed successfully");
                      ("id", VStr (Hmac.hex oid));
                      ("event_type", VStr "push")] 200)
  /\
  collection (snd (handle_webhook req w))
  = collection w ++ [[("author", VStr "u"); ("pushed_to", VStr "r:main");
                      ("on", VStr "2024-01-01T00:00:00Z");
                      ("timestamp", VDatetime (utcnow_at w (clock_reads w)));
                      ("sample", VStr "m");
                      ("_id", VObjectId oid)]].
Proof.
  intros Hsig Hevent Hjson Href Hrepo Hrname Hpusher Hpname Hcommit Hmessage Htimestamp
         Haccepts oid.
  apply verify_signature_fst_snd in Hsig.
  assert (Hextract :
            extract_push_data (VDict entries) w
            = (Return (Some [("author", VStr "u"); ("pushed_to", VStr "r:main");
                             ("on", VStr "2024-01-01T00:00:00Z");
                             ("timestamp", VDatetime (utcnow_at w (clock_reads w)));
                             ("sample", VStr "m")]),
               tick w)).
  { unfold extract_push_data, try_except, bind, lift, ret.
    cbn [get]. rewrite Hpusher. cbn [get]. rewrite Hpname.
    rewrite Hrepo. cbn [get]. rewrite Hrname, Href, Hcommit. cbn [get].
    rewrite Htimestamp, Hmessage. reflexivity. }
  unfold handle_webhook, try_except, bind, lift.
  rewrite Hsig, Hjson, Hevent. cbn [negb header_value].
  rewrite (lookup_some_not_nil _ _ _ Href). cbn [negb].
  change (eq_str (VStr "push") "push") with true. cbn beta iota zeta.
  rewrite Hextract.
  unfold validate_and_store, insert_repository_data, try_except, bind, ret, insert_one.
  cbn. rewrite Haccepts. split; reflexivity.
Qed.

Lemma push_end_to_end_witness :
  fst (handle_webhook
         (signed_request "push"
            (push_payload "refs/heads/main" "r" "u"
               [("message", VStr "m"); ("timestamp", VStr "2024-01-01T00:00:00Z")]))
         quiet_world)
  = Return (Response [("message", VStr "Webhook processed successfully");
                      ("id", VStr "000000000000000000000000");
                      ("event_type", VStr "push")] 200)
  /\
  collection
    (snd (handle_webhook
            (signed_request "push"
               (push_payload "refs/heads/main" "r" "u"
                  [("message", VStr "m"); ("timestamp", VStr "2024-01-01T00:00:00Z")]))
            quiet_world))
  = [[("author", VStr "u"); ("pushed_to", VStr "r:main");
      ("on", VStr "2024-01-01T00:00:00Z");
      ("timestamp", VDatetime (Datetime 2024 1 1 12 0 0 0));
      ("sample", VStr "m");
      ("_id", VObjectId (repeat x00 12))]].
Proof.
  apply (push_end_to_end
           (signed_request "push"
              (push_payload "refs/heads/main" "r" "u"
                 [("message", VStr "m"); ("timestamp", VStr "2024-01-01T00:00:00Z")]))
           quiet_world
           [("ref", VStr "refs/heads/main");
            ("repository", VDict [("name", VStr "r")]);
            ("pusher", VDict [("name", VStr "u")]);
            ("head_commit", VDict [("message", VStr "m");
                                   ("timestamp", VStr "2024-01-01T00:00:00Z")])]
           [("name", VStr "r")] [("name", VStr "u")]
           [("message", VStr "m"); ("timestamp", VStr "2024-01-01T00:00:00Z")]);
    reflexivity.
Defined.

(** C8, at the failing input: the push payload of the claim, posted the way
    test_system.py posts a push (event header push, no signature header) to a
    receiver with no secret in the environment, is answered 401 and stores
    no record, where the claim has exactly one stored record.  The verifier
    refuses an absent header before it reads the secret, so the same delivery
    is refused in every world. *)
Theorem unsigned_push_is_not_stored (w : world) :
  environ quiet_world "GITHUB_WEBHOOK_SECRET" = None /\
  fst (handle_webhook
         (unsigned_request "push"
            (push_payload "refs/heads/main" "r" "u"
               [("message", VStr "m"); ("timestamp", VStr "2024-01-01T00:00:00Z")]))
         quiet_world)
  = Return (error "Invalid signature" 401) /\
  collection
    (snd (handle_webhook
            (unsigned_request "push"
               (push_payload "refs/heads/main" "r" "u"
                  [("message", VStr "m"); ("timestamp", VStr "2024-01-01T00:00:00Z")]))
            quiet_world))
  = [] /\
  handle_webhook
    (unsigned_request "push"
       (push_payload "refs/heads/main" "r" "u"
          [("message", VStr "m"); ("timestamp", VStr "2024-01-01T00:00:00Z")]))
    w
  = (Return (error "Invalid signature" 401), w).
Proof. repeat split. Qed.

(** * Further properties of the receiver *)

(** ** The verifier *)

(** The verifier never touches the world, and it raises in two cases only,
    both with a signature header that is present and not empty: the secret
    holds a lone surrogate, and [encode] raises UnicodeEncodeError whatever
    the header is; or the secret is a text that is not empty and the header
    holds a character outside ASCII, and [compare_digest] raises
    TypeError. *)
Theorem verify_signature_raises_iff
        (payload_body : list byte) (signature_header : option string) (w : world) (e : exn) :
  snd (verify_signature payload_body signature_header w) = w /\
  (fst (verify_signature payload_body signature_header w) = Raise e <->
   exists header,
     signature_header = Some header /\ header <> "" /\
     ((environ w "GITHUB_WEBHOOK_SECRET" = Some Surrogates /\ e = UnicodeEncodeError) \/
      (exists secret,
          environ w "GITHUB_WEBHOOK_SECRET" = Some (Text secret) /\ secret <> "" /\
          is_ascii header = false /\ e = TypeError))).
Proof.
  split; [apply verify_signature_frame|].
  unfold verify_signature, bind, getenv, lift, ret.
  destruct signature_header as [header|]; cbn beta iota zeta.
  2:{ split; [discriminate | intros (h & Hh & _); discriminate]. }
  destruct (String.eqb_spec header "") as [-> | Hheader].
  { split; [discriminate | intros (h & Hh & Hne & _)].
    injection Hh as <-. contradiction. }
  destruct (environ w "GITHUB_WEBHOOK_SECRET") as [[secret|]|] eqn:Henv;
    cbn [env_truthy encode negb fst].
  - destruct (String.eqb_spec secret "") as [-> | Hsecret]; cbn [negb fst].
    { split; [discriminate|].
      intros (h & _ & _ & [[Hs _] | (s & Hs & Hne & _)]); [discriminate|].
      injection Hs as <-. contradiction. }
    unfold compare_digest. rewrite expected_signature_ascii. cbn [andb].
    destruct (is_ascii header) eqn:Hascii; cbn [fst].
    + split; [discriminate|].
      intros (h & Hh & _ & [[Hs _] | (s & _ & _ & Hna & _)]); [discriminate|].
      injection Hh as <-. congruence.
    + split.
      * intros H. injection H as <-. exists header.
        split; [reflexivity|]. split; [exact Hheader|]. right.
        exists secret. auto.
      * intros (h & _ & _ & [[Hs _] | (s & _ & _ & _ & ->)]);
          [discriminate | reflexivity].
  - split.
    + intros H. injection H as <-. exists header. auto.
    + intros (h & _ & _ & [[_ ->] | (s & Hs & _)]); [reflexivity | discriminate].
  - split; [discriminate|].
    intros (h & _ & _ & [[Hs _] | (s & Hs & _)]); discriminate.
Qed.

Lemma compress_length (h block : list N) :
  List.length h = 8 -> List.length (Sha256.compress h block) = 8.
Proof.
  intros Hh. unfold Sha256.compress.
  rewrite length_map, length_combine, Hh. reflexivity.
Qed.

Lemma absorb_length (fuel : nat) (h data : list N) :
  List.length h = 8 -> List.length (Sha256.absorb fuel h data) = 8.
Proof.
  revert h data. induction fuel as [|fuel IH]; intros h data Hh; cbn [Sha256.absorb].
  - exact Hh.
  - destruct data; [exact Hh|]. apply IH, compress_length, Hh.
Qed.

Lemma flat_map_length_const {A B} (f : A -> list B) (n : nat) (l : list A) :
  (forall a, List.length (f a) = n) -> List.length (flat_map f l) = n * List.length l.
Proof.
  intros Hf. induction l as [|a l IH]; cbn [flat_map List.length]; [lia|].
  rewrite length_app, Hf, IH. lia.
Qed.

(** A SHA-256 digest is 32 bytes, whatever the message. *)
Lemma sha256_digest_length (msg : list byte) : List.length (Sha256.digest msg) = 32.
Proof.
  unfold Sha256.digest. rewrite length_map.
  rewrite (flat_map_length_const Sha256.bytes_of_word 4) by reflexivity.
  rewrite absorb_length by reflexivity. reflexivity.
Qed.

Lemma string_of_chars_length (l : list ascii) :
  String.length (string_of_list_ascii l) = List.length l.
Proof. induction l as [|c l IH]; cbn; [reflexivity | rewrite IH; reflexivity]. Qed.

Lemma hex_length (bs : list byte) : String.length (Hmac.hex bs) = 2 * List.length bs.
Proof.
  unfold Hmac.hex. rewrite string_of_chars_length.
  apply flat_map_length_const. reflexivity.
Qed.

Lemma hex_of_byte_digits (b : byte) :
  forallb (fun c => mem_char c "0123456789abcdef") (Hmac.hex_of_byte b) = true.
Proof. destruct b; reflexivity. Qed.

Lemma hex_digits (bs : list byte) :
  forallb (fun c => mem_char c "0123456789abcdef") (list_ascii_of_string (Hmac.hex bs)) = true.
Proof.
  unfold Hmac.hex. rewrite list_ascii_of_string_of_list_ascii.
  induction bs as [|b bs IH]; [reflexivity|].
  cbn [flat_map]. rewrite forallb_app, hex_of_byte_digits, IH. reflexivity.
Qed.

(** With a secret configured, a header the verifier accepts is [sha256=]
    followed by exactly 64 lowercase hexadecimal digits (71 characters). *)
Theorem accepted_signature_shape
        (w : world) (secret : string) (payload_body : list byte) (header : string) :
  environ w "GITHUB_WEBHOOK_SECRET" = Some (Text secret) ->
  secret <> "" ->
  fst (verify_signature payload_body (Some header) w) = Return true ->
  exists digits,
    header = ("sha256=" ++ digits)%string /\
    String.length digits = 64 /\
    forallb (fun c => mem_char c "0123456789abcdef") (list_ascii_of_string digits) = true /\
    String.length header = 71.
Proof.
  intros Henv Hsecret Hrun.
  destruct (String.eqb_spec header "") as [-> | Hheader]; [discriminate Hrun|].
  rewrite (verify_signature_configured w secret Henv Hsecret payload_body header Hheader)
    in Hrun.
  cbn [fst] in Hrun. unfold compare_digest in Hrun.
  destruct (is_ascii _ && is_ascii header); [|discriminate Hrun].
  assert (E : String.eqb ("sha256=" ++ Hmac.hexdigest (encode_utf8 secret) payload_body)
                         header = true) by congruence.
  apply String.eqb_eq in E. subst header.
  exists (Hmac.hexdigest (encode_utf8 secret) payload_body).
  assert (Hlen : String.length (Hmac.hexdigest (encode_utf8 secret) payload_body) = 64).
  { unfold Hmac.hexdigest, Hmac.digest. rewrite hex_length, sha256_digest_length.
    reflexivity. }
  repeat split.
  - exact Hlen.
  - apply hex_digits.
  - cbn [append String.length]. rewrite Hlen. reflexivity.
Qed.

Lemma accepted_signature_shape_witness :
  exists digits,
    "sha256=f7bc83f430538424b13298e6aa6fb143ef4d59a14946175997479dbc2d1a3cd8"
      = ("sha256=" ++ digits)%string /\
    String.length digits = 64 /\
    forallb (fun c => mem_char c "0123456789abcdef") (list_ascii_of_string digits) = true /\
    String.length "sha256=f7bc83f430538424b13298e6aa6fb143ef4d59a14946175997479dbc2d1a3cd8"
      = 71.
Proof.
  apply (accepted_signature_shape (with_secret "key" quiet_world) "key"
           (bytes_of "The quick brown fox jumps over the lazy dog")).
  - reflexivity.
  - discriminate.
  - vm_compute. reflexivity.
Defined.

(** ** The extractors in closed form *)

Lemma get_dict (d : dict) (k : string) (default : value) :
  get (VDict d) k default = Return (or_default (lookup k d) default).
Proof. reflexivity. Qed.

Lemma get_entry (o : option value) (k : string) (default : value) :
  get (or_default o (VDict [])) k default =
  if dict_or_absent o then Return (or_default (sub o k) default) else Raise AttributeError.
Proof. destruct o as [[]|]; reflexivity. Qed.

Lemma branch_of_ref_entry (o : option value) :
  branch_of_ref (or_default o (VStr "refs/heads/main")) =
  if str_or_absent o
  then Return (VStr (match or_default o (VStr "refs/heads/main") with
                     | VStr ref =>
                         if String.prefix "refs/heads/" ref
                         then last (split "/" ref) EmptyString else ref
                     | _ => EmptyString
                     end))
  else Raise AttributeError.
Proof.
  destruct o as [[]|]; try reflexivity.
  cbn [or_default str_or_absent]. unfold branch_of_ref, startswith, split_last, obind.
  destruct (String.prefix "refs/heads/" s); reflexivity.
Qed.

Ltac split_shapes :=
  repeat
    (cbn beta iota zeta; cbn [andb negb fst snd];
     rewrite ?get_dict, ?get_entry, ?branch_of_ref_entry;
     match goal with
     | |- context [dict_or_absent ?o] =>
         let E := fresh "Eshape" in destruct (dict_or_absent o) eqn:E
     | |- context [str_or_absent ?o] =>
         let E := fresh "Eshape" in destruct (str_or_absent o) eqn:E
     | |- context [negb (truthy ?v) || eq_str ?v ?s] =>
         let E := fresh "Efallback" in destruct (negb (truthy v) || eq_str v s) eqn:E
     | |- context [if truthy ?v then _ else _] =>
         let E := fresh "Etruthy" in destruct (truthy v) eqn:E
     | |- context [negb (truthy ?v)] =>
         let E := fresh "Etruthy" in destruct (truthy v) eqn:E
     end);
  cbn beta iota zeta; cbn [andb negb fst snd].

Lemma extract_push_data_closed_form (d : dict) (w : world) :
  let name0 := or_default (sub (lookup "pusher" d) "name") (VStr "unknown") in
  let author :=
    if needs_fallback name0
    then or_default (sub (sub (lookup "head_commit" d) "author") "name") (VStr "unknown")
    else name0 in
  let repository := or_default (sub (lookup "repository" d) "name") (VStr "unknown") in
  let timestamp0 := or_default (sub (lookup "head_commit" d) "timestamp") VNone in
  let sample := or_default (sub (lookup "head_commit" d) "message")
                           (VStr "No commit message") in
  if push_extractable (VDict d) then
    exists branch,
      branch_of_ref (or_default (lookup "ref" d) (VStr "refs/heads/main")) = Return branch /\
      extract_push_data (VDict d) w =
      if truthy timestamp0 then
        (Return (Some [("author", author);
                       ("pushed_to", VStr (str repository ++ ":" ++ str branch));
                       ("on", timestamp0);
                       ("timestamp", VDatetime (utcnow_at w (clock_reads w)));
                       ("sample", sample)]),
         ticks 1 w)
      else
        (Return (Some [("author", author);
                       ("pushed_to", VStr (str repository ++ ":" ++ str branch));
                       ("on", VStr (isoformat (utcnow_at w (clock_reads w)) ++ "Z"));
                       ("timestamp", VDatetime (utcnow_at w (S (clock_reads w))));
                       ("sample", sample)]),
         ticks 2 w)
  else extract_push_data (VDict d) w = (Return None, w).
Proof.
  intros name0 author repository timestamp0 sample.
  subst name0 author repository timestamp0 sample.
  unfold push_extractable, needs_fallback, extract_push_data, try_except, bind, lift, ret,
    now_iso_z, utcnow.
  split_shapes.
  all: try reflexivity.
  all: eexists; split; reflexivity.
Qed.

Lemma extract_pull_request_data_closed_form (d : dict) (w : world) :
  let pr := lookup "pull_request" d in
  let action := or_default (lookup "action" d) (VStr "unknown") in
  let author := or_default (sub (sub pr "user") "login") (VStr "unknown") in
  let repository := or_default (sub (lookup "repository" d) "name") (VStr "unknown") in
  let base_branch := or_default (sub (sub pr "base") "ref") (VStr "main") in
  let created_at := or_default (sub pr "created_at") VNone in
  let updated_at := or_default (sub pr "updated_at") VNone in
  let timestamp0 := if truthy created_at then created_at else updated_at in
  let number := or_default (sub pr "number") (VStr "unknown") in
  let title := or_default (sub pr "title") (VStr "No title") in
  let sample := ("PR #" ++ str number ++ ": " ++ str title
                 ++ " (" ++ str action ++ ")")%string in
  if pull_request_extractable (VDict d) then
    extract_pull_request_data (VDict d) w =
    if truthy timestamp0 then
      (Return (Some [("author", author);
                     ("pushed_to", VStr (str repository ++ ":" ++ str base_branch));
                     ("on", timestamp0);
                     ("timestamp", VDatetime (utcnow_at w (clock_reads w)));
                     ("sample", VStr sample)]),
       ticks 1 w)
    else
      (Return (Some [("author", author);
                     ("pushed_to", VStr (str repository ++ ":" ++ str base_branch));
                     ("on", VStr (isoformat (utcnow_at w (clock_reads w)) ++ "Z"));
                     ("timestamp", VDatetime (utcnow_at w (S (clock_reads w))));
                     ("sample", VStr sample)]),
       ticks 2 w)
  else extract_pull_request_data (VDict d) w = (Return None, w).
Proof.
  intros pr action author repository base_branch created_at updated_at timestamp0
         number title sample.
  subst pr action author repository base_branch created_at updated_at timestamp0
        number title sample.
  unfold pull_request_extractable, extract_pull_request_data, try_except, bind, lift, ret,
    now_iso_z, utcnow.
  split_shapes.
  all: reflexivity.
Qed.

Lemma extract_not_dict (payload : value) (w : world) :
  (forall d, payload <> VDict d) ->
  extract_push_data payload w = (Return None, w) /\
  extract_pull_request_data payload w = (Return None, w).
Proof.
  intros H. destruct payload; try (split; reflexivity).
  exfalso. eapply H. reflexivity.
Qed.

(** ** Which deliveries the extractors accept, and what they read *)

(** The push extractor returns a record exactly for the payloads that are a
    dict whose pusher, head_commit and repository entries are absent or
    dicts, whose ref is absent or a str and, when the pusher name has to be
    replaced, whose head_commit.author is absent or a dict; the pull request
    extractor exactly for the dicts whose pull_request, its user, base and
    head, and repository are absent or dicts.  A refused payload leaves the
    world untouched, an accepted one reads the clock once or twice and does
    nothing else. *)
Theorem extraction_accepts_exactly (payload : value) (w : world) :
  (if push_extractable payload
   then exists record n,
       extract_push_data payload w = (Return (Some record), ticks n w) /\ (n = 1 \/ n = 2)
   else extract_push_data payload w = (Return None, w))
  /\
  (if pull_request_extractable payload
   then exists record n,
       extract_pull_request_data payload w = (Return (Some record), ticks n w)
       /\ (n = 1 \/ n = 2)
   else extract_pull_request_data payload w = (Return None, w)).
Proof.
  destruct payload as [| | | | | |d | |]; try (split; reflexivity).
  split.
  - pose proof (extract_push_data_closed_form d w) as H. cbv zeta in H.
    destruct (push_extractable (VDict d)); [|exact H].
    destruct H as (branch & _ & ->).
    destruct (truthy _); eauto.
  - pose proof (extract_pull_request_data_closed_form d w) as H. cbv zeta in H.
    destruct (pull_request_extractable (VDict d)); [|exact H].
    rewrite H. destruct (truthy _); eauto.
Qed.

(** A pull request whose [head] is not a dict is refused, although the head
    branch is never stored. *)
Example pull_request_head_must_be_dict :
  pull_request_extractable
    (VDict [("action", VStr "opened");
            ("pull_request", VDict [("number", VInt 1); ("head", VStr "feature")])]) = false
  /\ pull_request_extractable
       (VDict [("action", VStr "opened");
               ("pull_request", VDict [("number", VInt 1)])]) = true.
Proof. split; reflexivity. Qed.

(** A push payload that has none of pusher, head_commit, repository and ref
    is accepted with every default: author unknown, pushed_to unknown:main,
    sample No commit message; [on] is the first clock reading with a Z
    appended and [timestamp] is the second reading. *)
Theorem push_defaults (d : dict) (w : world) :
  lookup "pusher" d = None ->
  lookup "head_commit" d = None ->
  lookup "repository" d = None ->
  lookup "ref" d = None ->
  extract_push_data (VDict d) w =
    (Return (Some [("author", VStr "unknown");
                   ("pushed_to", VStr "unknown:main");
                   ("on", VStr (isoformat (utcnow_at w (clock_reads w)) ++ "Z"));
                   ("timestamp", VDatetime (utcnow_at w (S (clock_reads w))));
                   ("sample", VStr "No commit message")]),
     tick (tick w)).
Proof.
  intros Hpusher Hcommit Hrepo Href.
  pose proof (extract_push_data_closed_form d w) as H. cbv zeta in H.
  unfold push_extractable in H. rewrite Hpusher, Hcommit, Hrepo, Href in H.
  cbn in H. destruct H as (branch & Hbranch & ->).
  injection Hbranch as <-. reflexivity.
Qed.

Lemma push_defaults_witness :
  extract_push_data (VDict [("zen", VStr "Keep it logically awesome.")]) quiet_world =
    (Return (Some [("author", VStr "unknown");
                   ("pushed_to", VStr "unknown:main");
                   ("on", VStr "2024-01-01T12:00:00Z");
                   ("timestamp", VDatetime (Datetime 2024 1 1 12 0 1 0));
                   ("sample", VStr "No commit message")]),
     tick (tick quiet_world)).
Proof.
  apply (push_defaults [("zen", VStr "Keep it logically awesome.")] quiet_world);
    reflexivity.
Defined.

(** A pull request payload that has none of action, pull_request and
    repository is accepted with every default. *)
Theorem pull_request_defaults (d : dict) (w : world) :
  lookup "action" d = None ->
  lookup "pull_request" d = None ->
  lookup "repository" d = None ->
  extract_pull_request_data (VDict d) w =
    (Return (Some [("author", VStr "unknown");
                   ("pushed_to", VStr "unknown:main");
                   ("on", VStr (isoformat (utcnow_at w (clock_reads w)) ++ "Z"));
                   ("timestamp", VDatetime (utcnow_at w (S (clock_reads w))));
                   ("sample", VStr "PR #unknown: No title (unknown)")]),
     tick (tick w)).
Proof.
  intros Haction Hpr Hrepo.
  pose proof (extract_pull_request_data_closed_form d w) as H. cbv zeta in H.
  unfold pull_request_extractable in H. rewrite Haction, Hpr, Hrepo in H.
  exact H.
Qed.

Lemma pull_request_defaults_witness :
  fst (extract_pull_request_data (VDict [("zen", VStr "Keep it logically awesome.")])
                                 quiet_world) =
    Return (Some [("author", VStr "unknown");
                  ("pushed_to", VStr "unknown:main");
                  ("on", VStr "2024-01-01T12:00:00Z");
                  ("timestamp", VDatetime (Datetime 2024 1 1 12 0 1 0));
                  ("sample", VStr "PR #unknown: No title (unknown)")]).
Proof.
  rewrite (pull_request_defaults [("zen", VStr "Keep it logically awesome.")] quiet_world);
    reflexivity.
Defined.

(** A pull request with action [a], number [n], title [t], author login,
    base ref and repository name gives sample [PR #n: t (a)], pushed_to
    name:base and the creation time as [on]; the head is not stored. *)
Theorem pull_request_record
        (d pr user base repo : dict) (a t login ref name created : string) (n : Z)
        (w : world) :
  lookup "action" d = Some (VStr a) ->
  lookup "pull_request" d = Some (VDict pr) ->
  lookup "repository" d = Some (VDict repo) ->
  lookup "name" repo = Some (VStr name) ->
  lookup "number" pr = Some (VInt n) ->
  lookup "title" pr = Some (VStr t) ->
  lookup "user" pr = Some (VDict user) ->
  lookup "login" user = Some (VStr login) ->
  lookup "base" pr = Some (VDict base) ->
  lookup "ref" base = Some (VStr ref) ->
  dict_or_absent (lookup "head" pr) = true ->
  lookup "created_at" pr = Some (VStr created) ->
  created <> "" ->
  extract_pull_request_data (VDict d) w =
    (Return (Some [("author", VStr login);
                   ("pushed_to", VStr (name ++ ":" ++ ref));
                   ("on", VStr created);
                   ("timestamp", VDatetime (utcnow_at w (clock_reads w)));
                   ("sample", VStr ("PR #" ++ decimal_of_Z n ++ ": " ++ t
                                    ++ " (" ++ a ++ ")"))]),
     tick w).
Proof.
  intros Haction Hpr Hrepo Hname Hnumber Htitle Huser Hlogin Hbase Href Hhead Hcreated Hne.
  pose proof (extract_pull_request_data_closed_form d w) as H. cbv zeta in H.
  unfold pull_request_extractable in H.
  rewrite Haction, Hpr, Hrepo in H. cbn [sub or_default dict_or_absent andb] in H.
  rewrite Hname, Hnumber, Htitle, Huser, Hbase, Hhead, Hcreated in H.
  cbn [sub or_default dict_or_absent andb] in H. rewrite Hlogin, Href in H.
  cbn [or_default] in H. rewrite H.
  repeat (rewrite (proj2 (truthy_VStr created) Hne); cbn beta iota).
  reflexivity.
Qed.

Lemma pull_request_record_witness :
  fst (extract_pull_request_data
         (VDict [("action", VStr "opened");
                 ("repository", VDict [("name", VStr "r")]);
                 ("pull_request",
                  VDict [("number", VInt 42); ("title", VStr "T");
                         ("user", VDict [("login", VStr "u")]);
                         ("base", VDict [("ref", VStr "main")]);
                         ("head", VDict [("ref", VStr "feature-test")]);
                         ("created_at", VStr "2024-01-01T00:00:00Z")])])
         quiet_world)
  = Return (Some [("author", VStr "u"); ("pushed_to", VStr "r:main");
                  ("on", VStr "2024-01-01T00:00:00Z");
                  ("timestamp", VDatetime (Datetime 2024 1 1 12 0 0 0));
                  ("sample", VStr "PR #42: T (opened)")]).
Proof.
  rewrite (pull_request_record
             [("action", VStr "opened");
              ("repository", VDict [("name", VStr "r")]);
              ("pull_request",
               VDict [("number", VInt 42); ("title", VStr "T");
                      ("user", VDict [("login", VStr "u")]);
                      ("base", VDict [("ref", VStr "main")]);
                      ("head", VDict [("ref", VStr "feature-test")]);
                      ("created_at", VStr "2024-01-01T00:00:00Z")])]
             [("number", VInt 42); ("title", VStr "T");
              ("user", VDict [("login", VStr "u")]);
              ("base", VDict [("ref", VStr "main")]);
              ("head", VDict [("ref", VStr "feature-test")]);
              ("created_at", VStr "2024-01-01T00:00:00Z")]
             [("login", VStr "u")] [("ref", VStr "main")] [("name", VStr "r")]
             "opened" "T" "u" "main" "r" "2024-01-01T00:00:00Z" 42 quiet_world);
    solve [reflexivity | discriminate].
Defined.

(** The [on] of a pull request is created_at when that is truthy, else
    updated_at when that is truthy, else the clock reading with a Z. *)
Theorem pull_request_on_precedence (d : dict) (w w' : world) (record : dict) :
  extract_pull_request_data (VDict d) w = (Return (Some record), w') ->
  let created_at := or_default (sub (lookup "pull_request" d) "created_at") VNone in
  let updated_at := or_default (sub (lookup "pull_request" d) "updated_at") VNone in
  lookup "on" record =
  Some (if truthy created_at then created_at
        else if truthy updated_at then updated_at
        else VStr (isoformat (utcnow_at w (clock_reads w)) ++ "Z")).
Proof.
  intros Hrun created_at updated_at.
  pose proof (extract_pull_request_data_closed_form d w) as H. cbv zeta in H.
  destruct (pull_request_extractable (VDict d)); [|congruence].
  rewrite H in Hrun. fold created_at updated_at in Hrun.
  destruct (truthy created_at) eqn:Hc.
  - rewrite Hc in Hrun. injection Hrun as <- _. reflexivity.
  - destruct (truthy updated_at) eqn:Hu; injection Hrun as <- _; reflexivity.
Qed.

Lemma pull_request_on_precedence_witness :
  lookup "on" [("author", VStr "unknown"); ("pushed_to", VStr "unknown:main");
               ("on", VStr "2024-02-02T00:00:00Z");
               ("timestamp", VDatetime (Datetime 2024 1 1 12 0 0 0));
               ("sample", VStr "PR #unknown: No title (unknown)")]
  = Some (VStr "2024-02-02T00:00:00Z").
Proof.
  exact (pull_request_on_precedence
           [("pull_request", VDict [("created_at", VNone);
                                    ("updated_at", VStr "2024-02-02T00:00:00Z")])]
           quiet_world (tick quiet_world) _ eq_refl).
Defined.

(** The author of a push is the pusher name whenever that is truthy and is
    not the text unknown; otherwise (absent, empty, null, zero, unknown) it
    is head_commit.author.name, with unknown as the last resort. *)
Theorem push_author_source (d : dict) (w w' : world) (record : dict) :
  extract_push_data (VDict d) w = (Return (Some record), w') ->
  let name0 := or_default (sub (lookup "pusher" d) "name") (VStr "unknown") in
  lookup "author" record =
  Some (if negb (truthy name0) || eq_str name0 "unknown"
        then or_default (sub (sub (lookup "head_commit" d) "author") "name")
                        (VStr "unknown")
        else name0).
Proof.
  intros Hrun name0.
  pose proof (extract_push_data_closed_form d w) as H. cbv zeta in H.
  destruct (push_extractable (VDict d)); [|congruence].
  destruct H as (branch & _ & H). rewrite H in Hrun.
  destruct (truthy _); injection Hrun as <- _; reflexivity.
Qed.

Lemma push_author_source_witness :
  lookup "author" [("author", VStr "committer"); ("pushed_to", VStr "unknown:main");
                   ("on", VStr "2024-01-01T12:00:00Z");
                   ("timestamp", VDatetime (Datetime 2024 1 1 12 0 1 0));
                   ("sample", VStr "No commit message")]
  = Some (VStr "committer").
Proof.
  exact (push_author_source
           [("pusher", VDict [("name", VStr "unknown")]);
            ("head_commit", VDict [("author", VDict [("name", VStr "committer")])])]
           quiet_world (tick (tick quiet_world)) _ eq_refl).
Defined.

(** ** The branch *)

Lemma last_split_no_separator (sep : ascii) (s : string) :
  mem_char sep (last (split sep s) EmptyString) = false.
Proof.
  induction s as [|c s IH]; [reflexivity|].
  cbn [split]. destruct (Ascii.eqb c sep) eqn:Ec.
  - rewrite last_cons_not_nil by apply split_not_nil. exact IH.
  - destruct (split sep s) as [|piece pieces] eqn:Es.
    + exfalso. exact (split_not_nil sep s Es).
    + destruct pieces as [|p ps].
      * cbn [last] in *. unfold mem_char in *. cbn [list_ascii_of_string existsb].
        rewrite Ascii.eqb_sym, Ec. exact IH.
      * change (last (String c piece :: p :: ps) EmptyString) with (last (p :: ps) EmptyString).
        exact IH.
Qed.

Lemma append_assoc (a b c : string) : ((a ++ b) ++ c = a ++ (b ++ c))%string.
Proof. induction a as [|x a IH]; cbn; [reflexivity | rewrite IH; reflexivity]. Qed.

Lemma split_single (sep : ascii) (s piece : string) :
  split sep s = [piece] -> s = piece.
Proof.
  revert piece. induction s as [|c s IH]; intros piece H; cbn [split] in H.
  - congruence.
  - destruct (Ascii.eqb c sep).
    + injection H as _ H. exfalso. exact (split_not_nil sep s H).
    + destruct (split sep s) as [|q qs] eqn:Es;
        [exfalso; exact (split_not_nil sep s Es)|].
      injection H as <- ->. f_equal. apply IH. reflexivity.
Qed.

(** The text is its last piece, preceded by nothing or by something that
    ends with the separator. *)
Lemma last_split_suffix (sep : ascii) (s : string) :
  s = last (split sep s) EmptyString \/
  exists before, s = (before ++ String sep (last (split sep s) EmptyString))%string.
Proof.
  induction s as [|c s IH]; [left; reflexivity|].
  cbn [split]. destruct (Ascii.eqb_spec c sep) as [-> | Hc].
  - rewrite last_cons_not_nil by apply split_not_nil. right.
    destruct IH as [IH | [before IH]].
    + exists EmptyString. cbn [append]. rewrite <- IH. reflexivity.
    + exists (String sep before). cbn [append]. rewrite <- IH. reflexivity.
  - destruct (split sep s) as [|piece pieces] eqn:Es.
    + exfalso. exact (split_not_nil sep s Es).
    + destruct pieces as [|p ps].
      * left. cbn [last]. f_equal. apply (split_single sep). exact Es.
      * change (last (String c piece :: p :: ps) EmptyString)
          with (last (piece :: p :: ps) EmptyString).
        destruct IH as [IH | [before IH]].
        -- exfalso. pose proof (last_split_no_separator sep s) as Hno.
           rewrite Es, <- IH in Hno.
           rewrite (split_no_separator sep s Hno) in Es. discriminate Es.
        -- right. exists (String c before). cbn [append]. rewrite <- IH. reflexivity.
Qed.

(** For a ref that starts with refs/heads/ the branch is the text after the
    last slash of the ref: the ref is some text, a slash and the branch, and
    the branch holds no slash. *)
Theorem branch_is_last_segment (x : string) :
  exists before branch,
    branch_of_ref (VStr ("refs/heads/" ++ x)) = Return (VStr branch) /\
    ("refs/heads/" ++ x)%string = (before ++ "/" ++ branch)%string /\
    mem_char "/" branch = false.
Proof.
  destruct (last_split_suffix "/" x) as [Hx | [before Hx]].
  - exists "refs/heads", (last (split "/" x) EmptyString).
    split; [apply branch_of_ref_prefixed|]. split; [|apply last_split_no_separator].
    rewrite <- Hx. reflexivity.
  - exists ("refs/heads/" ++ before)%string, (last (split "/" x) EmptyString).
    split; [apply branch_of_ref_prefixed|]. split; [|apply last_split_no_separator].
    rewrite append_assoc. change ("/" ++ last (split "/" x) EmptyString)%string
      with (String "/" (last (split "/" x) EmptyString)).
    rewrite <- Hx. reflexivity.
Qed.

(** ** The answers of the endpoint *)

Lemma lookup_setitem_same (d : dict) (k : string) (v : value) :
  lookup k (setitem d k v) = Some v.
Proof.
  induction d as [|[k' v'] d IH]; cbn [setitem lookup].
  - rewrite String.eqb_refl. reflexivity.
  - destruct (String.eqb_spec k k') as [<- | Hk]; cbn [lookup].
    + rewrite String.eqb_refl. reflexivity.
    + destruct (String.eqb_spec k k'); [contradiction | exact IH].
Qed.

Lemma require_fields_present (fields : list string) (data : dict) (w : world) :
  (forall f, In f fields -> contains data f = true) ->
  require_fields fields data w = (Return tt, w).
Proof.
  induction fields as [|f fields IH]; intros H; cbn [require_fields]; [reflexivity|].
  rewrite (H f (or_introl eq_refl)). apply IH. intros g Hg. apply H. right. exact Hg.
Qed.

Lemma validated_fields_present (data : dict) (f : string) :
  fst (validate_repository_data data) = true ->
  In f ["author"; "pushed_to"; "on"; "sample"] -> contains data f = true.
Proof.
  intros Hvalid Hf. destruct (proj1 (validator_accepts_iff data) Hvalid f Hf) as [s Hs].
  unfold contains. rewrite Hs. reflexivity.
Qed.

Lemma validate_and_store_run (event_type : value) (record : dict) (w : world) :
  record <> [] ->
  contains record "timestamp" = true ->
  contains record "_id" = false ->
  validate_and_store event_type (Some record) w =
  if fst (validate_repository_data record) then
    if server_accepts w (document_of record w) then
      (Return (success event_type (fresh_oid w (List.length (collection w)))),
       store w (document_of record w))
    else (Return (error "Failed to store data" 500), w)
  else
    (Return (error ("Invalid data: " ++ snd (validate_repository_data record)) 400), w).
Proof.
  intros Hne Hts Hid. unfold validate_and_store.
  destruct record as [|entry record]; [contradiction|].
  set (full := entry :: record) in *.
  destruct (validate_repository_data full) as [is_valid message] eqn:Evalid.
  cbn [fst snd]. destruct is_valid; cbn [negb]; [|reflexivity].
  unfold insert_repository_data, try_except, bind, ret. rewrite Hts.
  rewrite require_fields_present.
  2:{ intros f Hf. apply validated_fields_present; [rewrite Evalid; reflexivity | exact Hf]. }
  unfold insert_one. rewrite Hid. fold (document_of full w).
  destruct (server_accepts w (document_of full w)); [|reflexivity].
  unfold document_of. rewrite lookup_setitem_same. reflexivity.
Qed.

Lemma extracted_record_shape (payload : value) (w w1 : world) (record : dict) :
  extract_push_data payload w = (Return (Some record), w1) \/
  extract_pull_request_data payload w = (Return (Some record), w1) ->
  exists author pushed_to on sample n,
    record = [("author", author); ("pushed_to", VStr pushed_to); ("on", on);
              ("timestamp", VDatetime (utcnow_at w (clock_reads w + n)));
              ("sample", sample)] /\
    w1 = ticks (S n) w /\ (n = 0 \/ n = 1).
Proof.
  intros Hrun.
  destruct payload as [| | | | | |d | |];
    try (destruct Hrun as [Hrun | Hrun]; discriminate Hrun).
  destruct Hrun as [Hrun | Hrun].
  - pose proof (extract_push_data_closed_form d w) as H. cbv zeta in H.
    destruct (push_extractable (VDict d)); [|congruence].
    destruct H as (branch & _ & H). rewrite H in Hrun.
    destruct (truthy _); injection Hrun as <- <-.
    + do 4 eexists. exists 0. rewrite Nat.add_0_r. repeat split. left; reflexivity.
    + do 4 eexists. exists 1. rewrite Nat.add_1_r. repeat split. right; reflexivity.
  - pose proof (extract_pull_request_data_closed_form d w) as H. cbv zeta in H.
    destruct (pull_request_extractable (VDict d)); [|congruence].
    rewrite H in Hrun.
    destruct (truthy _); injection Hrun as <- <-.
    + do 4 eexists. exists 0. rewrite Nat.add_0_r. repeat split. left; reflexivity.
    + do 4 eexists. exists 1. rewrite Nat.add_1_r. repeat split. right; reflexivity.
Qed.

Lemma ticks_frame (n : nat) (w : world) :
  environ (ticks n w) = environ w /\
  utcnow_at (ticks n w) = utcnow_at w /\
  clock_reads (ticks n w) = clock_reads w + n /\
  collection (ticks n w) = collection w /\
  server_accepts (ticks n w) = server_accepts w /\
  fresh_oid (ticks n w) = fresh_oid w.
Proof.
  induction n as [|n (He & Hu & Hc & Hl & Hs & Hf)]; cbn [ticks].
  - rewrite Nat.add_0_r. repeat split.
  - cbn [tick environ utcnow_at clock_reads collection server_accepts fresh_oid].
    rewrite Hc, Nat.add_succ_r. repeat split; assumption.
Qed.

(** What [handle_webhook] does once the signature is accepted and the
    payload is truthy: the extractor of the event has run, then lines
    129-148 decide. *)
Lemma handle_webhook_dispatch
      (req : request) (w w1 : world) (payload : value) (extracted : option dict)
      (event : string) :
  fst (verify_signature (data req) (x_hub_signature_256 req) w) = Return true ->
  get_json req = Return payload ->
  truthy payload = true ->
  x_github_event req = Some event ->
  (event = "push" /\ extract_push_data payload w = (Return extracted, w1)) \/
  (event = "pull_request" /\
   extract_pull_request_data payload w = (Return extracted, w1)) ->
  handle_webhook req w = validate_and_store (VStr event) extracted w1.
Proof.
  intros Hsig Hjson Htruthy Hevent Hrun.
  apply verify_signature_fst_snd in Hsig.
  unfold handle_webhook, try_except, bind, lift, ret.
  rewrite Hsig, Hjson, Hevent. cbn beta iota zeta. rewrite Htruthy.
  cbn [negb header_value].
  destruct (validate_and_store_effect (VStr event) extracted w1) as [[answer Hanswer] _].
  destruct Hrun as [[-> Hrun] | [-> Hrun]].
  - change (eq_str (VStr "push") "push") with true. cbn beta iota zeta.
    rewrite Hrun.
    destruct (validate_and_store (VStr "push") extracted w1) as [[a|e] w2];
      [reflexivity | discriminate Hanswer].
  - change (eq_str (VStr "pull_request") "push") with false.
    change (eq_str (VStr "pull_request") "pull_request") with true. cbn beta iota zeta.
    rewrite Hrun.
    destruct (validate_and_store (VStr "pull_request") extracted w1) as [[a|e] w2];
      [reflexivity | discriminate Hanswer].
Qed.

(** A request the verifier answers False to (absent or empty header, or a
    header that is not the expected signature) gets 401 and leaves the world
    as it was. *)
Theorem rejected_signature_unauthorized (req : request) (w : world) :
  fst (verify_signature (data req) (x_hub_signature_256 req) w) = Return false ->
  handle_webhook req w = (Return (error "Invalid signature" 401), w).
Proof.
  intros Hsig. apply verify_signature_fst_snd in Hsig.
  unfold handle_webhook, try_except, bind, lift, ret. rewrite Hsig. reflexivity.
Qed.

Lemma rejected_signature_unauthorized_witness :
  handle_webhook
    (Request (Some "sha256=0000") (Some "push") (bytes_of "{}") (Return test_push_payload))
    (with_secret "key" quiet_world)
  = (Return (error "Invalid signature" 401), with_secret "key" quiet_world).
Proof.
  apply (rejected_signature_unauthorized
           (Request (Some "sha256=0000") (Some "push") (bytes_of "{}")
                    (Return test_push_payload))
           (with_secret "key" quiet_world)).
  vm_compute. reflexivity.
Defined.

(** An exception inside the handler is answered 500 and nothing is stored:
    the TypeError of the verifier on a non-ASCII header, and whatever
    [request.get_json()] raises on a body it cannot parse (which therefore is
    not answered 400). *)
Theorem handler_exception_internal_error (req : request) (w : world) (e : exn) :
  fst (verify_signature (data req) (x_hub_signature_256 req) w) = Raise e \/
  (fst (verify_signature (data req) (x_hub_signature_256 req) w) = Return true /\
   get_json req = Raise e) ->
  handle_webhook req w = (Return (error "Internal server error" 500), w).
Proof.
  intros [Hsig | [Hsig Hjson]].
  - pose proof (verify_signature_frame (data req) (x_hub_signature_256 req) w) as Hw.
    unfold handle_webhook, try_except, bind, lift, ret.
    destruct (verify_signature (data req) (x_hub_signature_256 req) w) as [o w0].
    cbn [fst snd] in *. subst. reflexivity.
  - apply verify_signature_fst_snd in Hsig.
    unfold handle_webhook, try_except, bind, lift, ret. rewrite Hsig, Hjson. reflexivity.
Qed.

Lemma handler_exception_internal_error_witness :
  handle_webhook
    (Request (Some "sha256=unchecked") (Some "push") (bytes_of "{not json")
             (Raise (HTTPException 400)))
    quiet_world
  = (Return (error "Internal server error" 500), quiet_world).
Proof.
  apply (handler_exception_internal_error
           (Request (Some "sha256=unchecked") (Some "push") (bytes_of "{not json")
                    (Raise (HTTPException 400)))
           quiet_world (HTTPException 400)).
  right. split; reflexivity.
Defined.

(** A falsy payload (an empty object or array, null, zero, false, an empty
    string) is answered 400 before the event type is looked at, so even an
    event that would otherwise be acknowledged as unsupported is refused. *)
Theorem falsy_payload_bad_request (req : request) (w : world) (payload : value) :
  fst (verify_signature (data req) (x_hub_signature_256 req) w) = Return true ->
  get_json req = Return payload ->
  truthy payload = false ->
  handle_webhook req w = (Return (error "No payload received" 400), w).
Proof.
  intros Hsig Hjson Hfalsy. apply verify_signature_fst_snd in Hsig.
  unfold handle_webhook, try_except, bind, lift, ret.
  rewrite Hsig, Hjson. cbn beta iota zeta. rewrite Hfalsy. reflexivity.
Qed.

Lemma falsy_payload_bad_request_witness :
  handle_webhook (signed_request "issues" (VDict [])) quiet_world
  = (Return (error "No payload received" 400), quiet_world).
Proof.
  apply (falsy_payload_bad_request (signed_request "issues" (VDict [])) quiet_world
                                   (VDict []));
    reflexivity.
Defined.

Lemma extract_push_data_refused (payload : value) (w : world) :
  push_extractable payload = false -> extract_push_data payload w = (Return None, w).
Proof.
  intros H. destruct payload as [| | | | | |d | |]; try reflexivity.
  pose proof (extract_push_data_closed_form d w) as Hform. cbv zeta in Hform.
  rewrite H in Hform. exact Hform.
Qed.

Lemma extract_pull_request_data_refused (payload : value) (w : world) :
  pull_request_extractable payload = false ->
  extract_pull_request_data payload w = (Return None, w).
Proof.
  intros H. destruct payload as [| | | | | |d | |]; try reflexivity.
  pose proof (extract_pull_request_data_closed_form d w) as Hform. cbv zeta in Hform.
  rewrite H in Hform. exact Hform.
Qed.

(** A push or pull request delivery whose payload the extractor refuses (a
    JSON array, a null pusher, a numeric ref, ...) is answered 400 and leaves
    the world as it was. *)
Theorem unextractable_payload_bad_request
        (req : request) (w : world) (payload : value) :
  fst (verify_signature (data req) (x_hub_signature_256 req) w) = Return true ->
  get_json req = Return payload ->
  truthy payload = true ->
  (x_github_event req = Some "push" /\ push_extractable payload = false) \/
  (x_github_event req = Some "pull_request" /\ pull_request_extractable payload = false) ->
  handle_webhook req w = (Return (error "Failed to extract data from payload" 400), w).
Proof.
  intros Hsig Hjson Htruthy [[Hevent Hshape] | [Hevent Hshape]].
  - rewrite (handle_webhook_dispatch req w w payload None "push" Hsig Hjson Htruthy Hevent);
      [reflexivity|].
    left. split; [reflexivity | apply extract_push_data_refused, Hshape].
  - rewrite (handle_webhook_dispatch req w w payload None "pull_request"
               Hsig Hjson Htruthy Hevent); [reflexivity|].
    right. split; [reflexivity | apply extract_pull_request_data_refused, Hshape].
Qed.

Lemma unextractable_payload_bad_request_witness :
  handle_webhook
    (signed_request "push" (VDict [("ref", VStr "refs/heads/main"); ("pusher", VNone)]))
    quiet_world
  = (Return (error "Failed to extract data from payload" 400), quiet_world).
Proof.
  apply (unextractable_payload_bad_request
           (signed_request "push" (VDict [("ref", VStr "refs/heads/main"); ("pusher", VNone)]))
           quiet_world
           (VDict [("ref", VStr "refs/heads/main"); ("pusher", VNone)]));
    try reflexivity.
  left. split; reflexivity.
Defined.

Lemma extracted_record_store_ready (payload : value) (w w1 : world) (record : dict) :
  extract_push_data payload w = (Return (Some record), w1) \/
  extract_pull_request_data payload w = (Return (Some record), w1) ->
  record <> [] /\ contains record "timestamp" = true /\ contains record "_id" = false /\
  collection w1 = collection w /\ server_accepts w1 = server_accepts w /\
  fresh_oid w1 = fresh_oid w /\ document_of record w1 = document_of record w.
Proof.
  intros Hrun.
  destruct (extracted_record_shape payload w w1 record Hrun)
    as (author & pushed_to & on & sample & n & -> & -> & _).
  destruct (ticks_frame (S n) w) as (_ & _ & _ & Hl & Hs & Hf).
  repeat split; try assumption; try discriminate.
  unfold document_of. rewrite Hl, Hf. reflexivity.
Qed.

(** What the validator can object to in an extracted record: pushed_to is
    always a str and no field is ever missing, so the reason names author, on
    or sample.  The delivery is then answered 400 with that reason and
    nothing is stored. *)
Theorem invalid_record_bad_request
        (req : request) (w w1 : world) (payload : value) (record : dict) (event : string) :
  fst (verify_signature (data req) (x_hub_signature_256 req) w) = Return true ->
  get_json req = Return payload ->
  truthy payload = true ->
  x_github_event req = Some event ->
  (event = "push" /\ extract_push_data payload w = (Return (Some record), w1)) \/
  (event = "pull_request" /\
   extract_pull_request_data payload w = (Return (Some record), w1)) ->
  fst (validate_repository_data record) = false ->
  handle_webhook req w =
    (Return (error ("Invalid data: " ++ snd (validate_repository_data record)) 400), w1)
  /\ collection w1 = collection w
  /\ In (snd (validate_repository_data record))
        ["Field author must be of type str"; "Field on must be of type str";
         "Field sample must be of type str"].
Proof.
  intros Hsig Hjson Htruthy Hevent Hrun Hinvalid.
  assert (Hrun' : extract_push_data payload w = (Return (Some record), w1) \/
                  extract_pull_request_data payload w = (Return (Some record), w1))
    by (destruct Hrun as [[_ H] | [_ H]]; auto).
  destruct (extracted_record_store_ready payload w w1 record Hrun')
    as (Hne & Hts & Hid & Hl & _).
  rewrite (handle_webhook_dispatch req w w1 payload (Some record) event
             Hsig Hjson Htruthy Hevent Hrun).
  rewrite (validate_and_store_run (VStr event) record w1 Hne Hts Hid), Hinvalid.
  split; [reflexivity|]. split; [exact Hl|].
  destruct (extracted_record_shape payload w w1 record Hrun')
    as (author & pushed_to & on & sample & n & -> & _ & _).
  revert Hinvalid. unfold validate_repository_data, required_fields.
  rewrite !validate_fields_step.
  cbn [lookup String.eqb Ascii.eqb Bool.eqb].
  destruct author; try (intros _; left; reflexivity).
  destruct on; try (intros _; right; left; reflexivity).
  destruct sample; try (intros _; right; right; left; reflexivity).
  cbn [validate_fields fst]. discriminate.
Qed.

Lemma invalid_record_bad_request_witness :
  handle_webhook
    (signed_request "push"
       (VDict [("pusher", VDict [("name", VStr "u")]);
               ("head_commit", VDict [("message", VNone)])]))
    quiet_world
  = (Return (error "Invalid data: Field sample must be of type str" 400),
     tick (tick quiet_world)).
Proof.
  apply (invalid_record_bad_request
           (signed_request "push"
              (VDict [("pusher", VDict [("name", VStr "u")]);
                      ("head_commit", VDict [("message", VNone)])]))
           quiet_world (tick (tick quiet_world))
           (VDict [("pusher", VDict [("name", VStr "u")]);
                   ("head_commit", VDict [("message", VNone)])])
           [("author", VStr "u"); ("pushed_to", VStr "unknown:main");
            ("on", VStr "2024-01-01T12:00:00Z");
            ("timestamp", VDatetime (Datetime 2024 1 1 12 0 1 0));
            ("sample", VNone)]
           "push");
    try reflexivity.
  left. split; reflexivity.
Defined.

(** A delivery whose extracted record the validator accepts is stored when
    the server accepts the insert: the answer is 200 with the hex of the
    generated ObjectId and the event type, and the collection grows by the
    record with that [_id] appended.  When the insert fails the answer is
    500 and the collection is as before. *)
Theorem valid_record_stored_or_refused
        (req : request) (w w1 : world) (payload : value) (record : dict) (event : string) :
  fst (verify_signature (data req) (x_hub_signature_256 req) w) = Return true ->
  get_json req = Return payload ->
  truthy payload = true ->
  x_github_event req = Some event ->
  (event = "push" /\ extract_push_data payload w = (Return (Some record), w1)) \/
  (event = "pull_request" /\
   extract_pull_request_data payload w = (Return (Some record), w1)) ->
  fst (validate_repository_data record) = true ->
  handle_webhook req w =
    if server_accepts w (document_of record w) then
      (Return (success (VStr event) (fresh_oid w (List.length (collection w)))),
       store w1 (document_of record w))
    else (Return (error "Failed to store data" 500), w1).
Proof.
  intros Hsig Hjson Htruthy Hevent Hrun Hvalid.
  assert (Hrun' : extract_push_data payload w = (Return (Some record), w1) \/
                  extract_pull_request_data payload w = (Return (Some record), w1))
    by (destruct Hrun as [[_ H] | [_ H]]; auto).
  destruct (extracted_record_store_ready payload w w1 record Hrun')
    as (Hne & Hts & Hid & Hl & Hs & Hf & Hdoc).
  rewrite (handle_webhook_dispatch req w w1 payload (Some record) event
             Hsig Hjson Htruthy Hevent Hrun).
  rewrite (validate_and_store_run (VStr event) record w1 Hne Hts Hid), Hvalid.
  rewrite Hdoc, Hs, Hf, Hl. reflexivity.
Qed.

Lemma valid_record_stored_or_refused_witness :
  handle_webhook
    (signed_request "push" test_push_payload)
    (World (fun _ => None) (fun k => Datetime 2024 1 1 12 0 k 0) 0 [] (fun _ => false)
           (fun _ => repeat x00 12))
  = (Return (error "Failed to store data" 500),
     World (fun _ => None) (fun k => Datetime 2024 1 1 12 0 k 0) 1 [] (fun _ => false)
           (fun _ => repeat x00 12)).
Proof.
  apply (valid_record_stored_or_refused
           (signed_request "push" test_push_payload)
           (World (fun _ => None) (fun k => Datetime 2024 1 1 12 0 k 0) 0 []
                  (fun _ => false) (fun _ => repeat x00 12))
           (World (fun _ => None) (fun k => Datetime 2024 1 1 12 0 k 0) 1 []
                  (fun _ => false) (fun _ => repeat x00 12))
           test_push_payload
           [("author", VStr "test_user"); ("pushed_to", VStr "test-repo:main");
            ("on", VStr "2024-01-01T00:00:00Z");
            ("timestamp", VDatetime (Datetime 2024 1 1 12 0 0 0));
            ("sample", VStr "Test commit for system validation")]
           "push");
    try reflexivity.
  left. split; reflexivity.
Defined.

Lemma verify_signature_pair (payload_body : list byte) (header : option string) (w : world) :
  verify_signature payload_body header w = (fst (verify_signature payload_body header w), w).
Proof.
  pose proof (verify_signature_frame payload_body header w) as Hw.
  destruct (verify_signature payload_body header w) as [o w0]. cbn [fst snd] in *.
  congruence.
Qed.

(** Every way [handle_webhook] can end. *)
Ltac error_case :=
  split; [reflexivity | split; [cbn [In]; tauto | first [reflexivity | assumption]]].

Lemma handle_webhook_cases (req : request) (w : world) :
  (exists msg code w',
      handle_webhook req w = (Return (error msg code), w') /\
      In code [400; 401; 500] /\ collection w' = collection w)
  \/
  (exists msg,
      handle_webhook req w = (Return (Response [("message", VStr msg)] 200), w))
  \/
  (exists event author pushed_to on sample n,
      n <= 1 /\
      handle_webhook req w =
      (Return (success (VStr event) (fresh_oid w (List.length (collection w)))),
       store (ticks (S n) w)
             [("author", VStr author); ("pushed_to", VStr pushed_to); ("on", VStr on);
              ("timestamp", VDatetime (utcnow_at w (clock_reads w + n)));
              ("sample", VStr sample);
              ("_id", VObjectId (fresh_oid w (List.length (collection w))))])).
Proof.
  destruct (fst (verify_signature (data req) (x_hub_signature_256 req) w)) as [[|]|e] eqn:Hsig.
  2:{ left. exists "Invalid signature", 401, w. apply verify_signature_fst_snd in Hsig.
      unfold handle_webhook, try_except, bind, lift, ret. rewrite Hsig.
      error_case. }
  2:{ left. exists "Internal server error", 500, w.
      unfold handle_webhook, try_except, bind, lift, ret.
      rewrite verify_signature_pair, Hsig.
      error_case. }
  destruct (get_json req) as [payload|e] eqn:Hjson.
  2:{ left. exists "Internal server error", 500, w. apply verify_signature_fst_snd in Hsig.
      unfold handle_webhook, try_except, bind, lift, ret. rewrite Hsig, Hjson.
      error_case. }
  destruct (truthy payload) eqn:Htruthy.
  2:{ left. exists "No payload received", 400, w. apply verify_signature_fst_snd in Hsig.
      unfold handle_webhook, try_except, bind, lift, ret. rewrite Hsig, Hjson.
      cbn beta iota zeta. rewrite Htruthy. error_case. }
  assert (Hstore : forall event extracted w1,
             x_github_event req = Some event ->
             (event = "push" /\ extract_push_data payload w = (Return extracted, w1)) \/
             (event = "pull_request" /\
              extract_pull_request_data payload w = (Return extracted, w1)) ->
             collection w1 = collection w ->
             (exists msg code w',
                 handle_webhook req w = (Return (error msg code), w') /\
                 In code [400; 401; 500] /\ collection w' = collection w)
             \/
             (exists event author pushed_to on sample n,
                 n <= 1 /\
                 handle_webhook req w =
                 (Return (success (VStr event) (fresh_oid w (List.length (collection w)))),
                  store (ticks (S n) w)
                        [("author", VStr author); ("pushed_to", VStr pushed_to);
                         ("on", VStr on);
                         ("timestamp", VDatetime (utcnow_at w (clock_reads w + n)));
                         ("sample", VStr sample);
                         ("_id", VObjectId (fresh_oid w (List.length (collection w))))]))).
  { intros event extracted w1 Hevent Hrun Hcoll.
    rewrite (handle_webhook_dispatch req w w1 payload extracted event
               Hsig Hjson Htruthy Hevent Hrun).
    destruct extracted as [record|].
    2:{ left. exists "Failed to extract data from payload", 400, w1. error_case. }
    assert (Hrun' : extract_push_data payload w = (Return (Some record), w1) \/
                    extract_pull_request_data payload w = (Return (Some record), w1))
      by (destruct Hrun as [[_ H] | [_ H]]; auto).
    destruct (extracted_record_store_ready payload w w1 record Hrun')
      as (Hne & Hts & Hid & Hl & Hs & Hf & Hdoc).
    rewrite (validate_and_store_run (VStr event) record w1 Hne Hts Hid).
    destruct (fst (validate_repository_data record)) eqn:Hvalid.
    2:{ left. do 2 eexists. exists w1. error_case. }
    rewrite Hdoc, Hs, Hf, Hl.
    destruct (server_accepts w (document_of record w)).
    2:{ left. exists "Failed to store data", 500, w1. error_case. }
    right.
    pose proof (proj1 (validator_accepts_iff record) Hvalid) as Hstr.
    destruct (extracted_record_shape payload w w1 record Hrun')
      as (author & pushed_to & on & sample & n & -> & -> & Hn).
    destruct (Hstr "author") as [a Ha]; [cbn; auto|].
    destruct (Hstr "on") as [o Ho]; [cbn; auto|].
    destruct (Hstr "sample") as [s Hsample]; [cbn; auto|].
    cbn in Ha, Ho, Hsample. injection Ha as ->. injection Ho as ->. injection Hsample as ->.
    exists event, a, pushed_to, o, s, n. split; [lia|]. reflexivity. }
  destruct (x_github_event req) as [event|] eqn:Hevent.
  - destruct (String.eqb_spec event "push") as [-> | Hpush].
    + destruct (extract_push_data_returns payload w) as (extracted & w1 & Hrun).
      pose proof (extract_push_data_frame payload w) as Hcoll. rewrite Hrun in Hcoll.
      destruct (Hstore "push" extracted w1 eq_refl) as [H | H]; auto.
    + destruct (String.eqb_spec event "pull_request") as [-> | Hpr].
      * destruct (extract_pull_request_data_returns payload w) as (extracted & w1 & Hrun).
        pose proof (extract_pull_request_data_frame payload w) as Hcoll.
        rewrite Hrun in Hcoll.
        destruct (Hstore "pull_request" extracted w1 eq_refl) as [H | H]; auto.
      * right. left. eexists. apply verify_signature_fst_snd in Hsig.
        unfold handle_webhook, try_except, bind, lift, ret. rewrite Hsig, Hjson, Hevent.
        cbn beta iota zeta. rewrite Htruthy. cbn [negb header_value eq_str].
        destruct (String.eqb_spec event "push"); [contradiction|].
        destruct (String.eqb_spec event "pull_request"); [contradiction|].
        reflexivity.
  - right. left. eexists. apply verify_signature_fst_snd in Hsig.
    unfold handle_webhook, try_except, bind, lift, ret. rewrite Hsig, Hjson, Hevent.
    cbn beta iota zeta. rewrite Htruthy. reflexivity.
Qed.

Lemma app_one_not_self {A} (l : list A) (a : A) : l ++ [a] <> l.
Proof.
  intros H. apply (f_equal (@List.length A)) in H. rewrite length_app in H.
  cbn in H. lia.
Qed.

(** [handle_webhook] never raises: it answers every request, with status
    200, 400, 401 or 500.  It stores a document exactly when it answers with
    the success message, whose id is the ObjectId generated for that
    document. *)
Theorem handle_webhook_always_answers (req : request) (w : world) :
  exists answer w',
    handle_webhook req w = (Return answer, w') /\
    In (status answer) [200; 400; 401; 500] /\
    ((exists stored, collection w' = collection w ++ [stored]) <->
     (exists event,
         answer = success (VStr event) (fresh_oid w (List.length (collection w))))).
Proof.
  destruct (handle_webhook_cases req w)
    as [(msg & code & w' & -> & Hcode & Hcoll)
       | [(msg & ->)
         | (event & author & pushed_to & on & sample & n & Hn & ->)]].
  - exists (error msg code), w'. split; [reflexivity|]. split.
    + cbn [status error]. cbn [In] in *. tauto.
    + rewrite Hcoll. split.
      * intros [stored H]. symmetry in H. exfalso. exact (app_one_not_self _ _ H).
      * intros [event H]. discriminate H.
  - eexists. exists w. split; [reflexivity|]. split.
    + cbn [status In]. tauto.
    + split.
      * intros [stored H]. symmetry in H. exfalso. exact (app_one_not_self _ _ H).
      * intros [event H]. discriminate H.
  - eexists. eexists. split; [reflexivity|]. split.
    + cbn [status success In]. tauto.
    + split.
      * intros _. exists event. reflexivity.
      * intros _. eexists. cbn [store collection].
        destruct (ticks_frame (S n) w) as (_ & _ & _ & -> & _). reflexivity.
Qed.

(** A stored document is exactly six entries, in this order: author,
    pushed_to, on and sample as strings, the timestamp read from the
    server clock during this request (never taken from the payload), and the
    generated ObjectId as [_id]. *)
Theorem stored_document_shape (req : request) (w : world) :
  collection (snd (handle_webhook req w)) = collection w \/
  exists author pushed_to on sample n,
    n <= 1 /\
    collection (snd (handle_webhook req w)) =
    collection w ++
    [[("author", VStr author); ("pushed_to", VStr pushed_to); ("on", VStr on);
      ("timestamp", VDatetime (utcnow_at w (clock_reads w + n)));
      ("sample", VStr sample);
      ("_id", VObjectId (fresh_oid w (List.length (collection w))))]].
Proof.
  destruct (handle_webhook_cases req w)
    as [(msg & code & w' & -> & Hcode & Hcoll)
       | [(msg & ->)
         | (event & author & pushed_to & on & sample & n & Hn & ->)]].
  - left. exact Hcoll.
  - left. reflexivity.
  - right. exists author, pushed_to, on, sample, n. split; [exact Hn|].
    cbn [snd store collection].
    destruct (ticks_frame (S n) w) as (_ & _ & _ & -> & _). reflexivity.
Qed.

(** A payload cannot set the stored timestamp or the id: a push that carries
    its own top-level [timestamp] and [_id] is stored with the clock reading
    and a generated ObjectId. *)
Example payload_timestamp_ignored :
  collection
    (snd (handle_webhook
            (signed_request "push"
               (VDict [("timestamp", VStr "1999-01-01T00:00:00Z"); ("_id", VInt 7);
                       ("pusher", VDict [("name", VStr "u")]);
                       ("head_commit", VDict [("timestamp", VStr "2024-01-01T00:00:00Z")])]))
            quiet_world))
  = [[("author", VStr "u"); ("pushed_to", VStr "unknown:main");
      ("on", VStr "2024-01-01T00:00:00Z");
      ("timestamp", VDatetime (Datetime 2024 1 1 12 0 0 0));
      ("sample", VStr "No commit message");
      ("_id", VObjectId (repeat x00 12))]].
Proof. reflexivity. Qed.

(** ** The validator and the insert on their own *)

(** The verdict depends on nothing but the entries author, pushed_to, on
    and sample: timestamp, _id and any other key, and the order of the keys,
    play no part. *)
Theorem validator_reads_four_fields (data1 data2 : dict) :
  (forall f, In f ["author"; "pushed_to"; "on"; "sample"] ->
             lookup f data1 = lookup f data2) ->
  validate_repository_data data1 = validate_repository_data data2.
Proof.
  intros H. unfold validate_repository_data, required_fields.
  rewrite !validate_fields_step.
  rewrite (H "author"), (H "pushed_to"), (H "on"), (H "sample") by (cbn [In]; tauto).
  reflexivity.
Qed.

Lemma validator_reads_four_fields_witness :
  validate_repository_data
    [("sample", VStr "m"); ("on", VStr "t"); ("pushed_to", VStr "r:main");
     ("author", VStr "u"); ("timestamp", VInt 0)]
  = validate_repository_data
      [("author", VStr "u"); ("pushed_to", VStr "r:main"); ("on", VStr "t");
       ("sample", VStr "m")].
Proof.
  apply (validator_reads_four_fields
           [("sample", VStr "m"); ("on", VStr "t"); ("pushed_to", VStr "r:main");
            ("author", VStr "u"); ("timestamp", VInt 0)]
           [("author", VStr "u"); ("pushed_to", VStr "r:main"); ("on", VStr "t");
            ("sample", VStr "m")]).
  intros f [<- | [<- | [<- | [<- | []]]]]; reflexivity.
Defined.

Lemma require_fields_missing (fields : list string) (data : dict) (w : world) (f : string) :
  In f fields -> contains data f = false ->
  exists msg, require_fields fields data w = (Raise (ValueError msg), w).
Proof.
  induction fields as [|g fields IH]; intros Hin Hmissing; [contradiction|].
  cbn [require_fields]. destruct (contains data g) eqn:Hg.
  - destruct Hin as [-> | Hin]; [congruence | exact (IH Hin Hmissing)].
  - eexists. reflexivity.
Qed.

Lemma contains_setitem_other (d : dict) (k f : string) (v : value) :
  f <> k -> contains (setitem d k v) f = contains d f.
Proof. intros H. unfold contains. rewrite lookup_setitem_other by exact H. reflexivity. Qed.

(** [insert_repository_data] refuses a dict that lacks author, pushed_to, on
    or sample: it returns None and the collection is as before. *)
Theorem insert_requires_all_fields (data : dict) (w : world) (f : string) :
  In f ["author"; "pushed_to"; "on"; "sample"] ->
  contains data f = false ->
  fst (insert_repository_data data w) = Return None /\
  collection (snd (insert_repository_data data w)) = collection w.
Proof.
  intros Hin Hmissing.
  unfold insert_repository_data, try_except, bind, ret, utcnow.
  destruct (contains data "timestamp"); cbn beta iota zeta.
  - destruct (require_fields_missing _ data w f Hin Hmissing) as [msg ->].
    split; reflexivity.
  - match goal with
    | |- context [require_fields ?fs ?d ?w1] =>
        destruct (require_fields_missing fs d w1 f Hin) as [msg ->]
    end.
    + rewrite contains_setitem_other; [exact Hmissing|].
      cbn [In] in Hin. intuition (subst; discriminate).
    + split; reflexivity.
Qed.

Lemma insert_requires_all_fields_witness :
  fst (insert_repository_data
         [("author", VStr "u"); ("pushed_to", VStr "r:main"); ("on", VStr "t")]
         quiet_world) = Return None /\
  collection
    (snd (insert_repository_data
            [("author", VStr "u"); ("pushed_to", VStr "r:main"); ("on", VStr "t")]
            quiet_world)) = [].
Proof.
  apply (insert_requires_all_fields
           [("author", VStr "u"); ("pushed_to", VStr "r:main"); ("on", VStr "t")]
           quiet_world "sample").
  - cbn [In]. tauto.
  - reflexivity.
Defined.

Lemma insert_repository_data_run (data : dict) (w : world) :
  (forall f, In f ["author"; "pushed_to"; "on"; "sample"] -> contains data f = true) ->
  let data1 := if contains data "timestamp" then data
               else setitem data "timestamp" (VDatetime (utcnow_at w (clock_reads w))) in
  let w1 := if contains data "timestamp" then w else tick w in
  let doc := if contains data1 "_id" then data1
             else setitem data1 "_id"
                          (VObjectId (fresh_oid w (List.length (collection w)))) in
  insert_repository_data data w =
  if server_accepts w doc
  then (Return (Some (or_default (lookup "_id" doc) VNone)), store w1 doc)
  else (Return None, w1).
Proof.
  intros Hfields data1 w1 doc. subst data1 w1 doc.
  unfold insert_repository_data, try_except, bind, ret, utcnow.
  destruct (contains data "timestamp") eqn:Hts; cbn beta iota zeta.
  - rewrite (require_fields_present _ data w Hfields).
    unfold insert_one. destruct (server_accepts w _); reflexivity.
  - set (data1 := setitem data "timestamp" (VDatetime (utcnow_at w (clock_reads w)))).
    assert (Hfields1 : forall f, In f ["author"; "pushed_to"; "on"; "sample"] ->
                                 contains data1 f = true).
    { intros f Hf. unfold data1. rewrite contains_setitem_other; [exact (Hfields f Hf)|].
      cbn [In] in Hf. intuition (subst; discriminate). }
    rewrite (require_fields_present _ data1 (tick w) Hfields1).
    unfold insert_one. cbn [tick server_accepts fresh_oid collection].
    destruct (server_accepts w _); reflexivity.
Qed.

(** When the four fields are present (of whatever type) and the server
    accepts the document, [insert_repository_data] appends one document and
    returns its [_id]: the given one if the dict had an [_id], else a fresh
    ObjectId.  A timestamp that is present is kept as it is, a missing one
    is the clock reading, and every other entry is stored unchanged. *)
Theorem insert_stores_and_returns_id (data : dict) (w : world) :
  (forall f, In f ["author"; "pushed_to"; "on"; "sample"] -> contains data f = true) ->
  (forall doc, server_accepts w doc = true) ->
  exists id stored,
    fst (insert_repository_data data w) = Return (Some id) /\
    collection (snd (insert_repository_data data w)) = collection w ++ [stored] /\
    lookup "_id" stored = Some id /\
    id = or_default (lookup "_id" data)
                    (VObjectId (fresh_oid w (List.length (collection w)))) /\
    lookup "timestamp" stored =
      Some (or_default (lookup "timestamp" data)
                       (VDatetime (utcnow_at w (clock_reads w)))) /\
    (forall f, f <> "_id" -> f <> "timestamp" -> lookup f stored = lookup f data).
Proof.
  intros Hfields Haccepts.
  rewrite (insert_repository_data_run data w Hfields). cbv zeta. rewrite Haccepts.
  unfold contains.
  destruct (lookup "timestamp" data) as [t|] eqn:Hts.
  - destruct (lookup "_id" data) as [v|] eqn:Hid.
    + exists v, data. cbn [fst snd store collection or_default]. rewrite Hid.
      repeat split; auto.
    + eexists. eexists. cbn [fst snd store collection or_default].
      rewrite lookup_setitem_same. cbn [or_default].
      repeat split.
      * apply lookup_setitem_same.
      * rewrite lookup_setitem_other by discriminate. exact Hts.
      * intros f Hf _. apply lookup_setitem_other. exact Hf.
  - rewrite (lookup_setitem_other data "timestamp" "_id") by discriminate.
    destruct (lookup "_id" data) as [v|] eqn:Hid.
    + eexists. eexists. cbn [fst snd store collection or_default tick].
      rewrite (lookup_setitem_other data "timestamp" "_id") by discriminate.
      rewrite Hid. cbn [or_default].
      repeat split.
      * rewrite lookup_setitem_other by discriminate. exact Hid.
      * apply lookup_setitem_same.
      * intros f _ Hf. apply lookup_setitem_other. exact Hf.
    + eexists. eexists. cbn [fst snd store collection or_default tick].
      rewrite lookup_setitem_same. cbn [or_default].
      repeat split.
      * apply lookup_setitem_same.
      * rewrite lookup_setitem_other by discriminate. apply lookup_setitem_same.
      * intros f Hf Hf'. rewrite lookup_setitem_other by exact Hf.
        apply lookup_setitem_other. exact Hf'.
Qed.

Lemma insert_stores_and_returns_id_witness :
  exists id stored,
    fst (insert_repository_data
           [("author", VInt 1); ("pushed_to", VNone); ("on", VStr "t"); ("sample", VList [])]
           quiet_world) = Return (Some id) /\
    collection
      (snd (insert_repository_data
              [("author", VInt 1); ("pushed_to", VNone); ("on", VStr "t");
               ("sample", VList [])]
              quiet_world)) = collection quiet_world ++ [stored] /\
    lookup "_id" stored = Some id /\
    id = or_default
           (lookup "_id" [("author", VInt 1); ("pushed_to", VNone); ("on", VStr "t");
                          ("sample", VList [])])
           (VObjectId (fresh_oid quiet_world (List.length (collection quiet_world)))) /\
    lookup "timestamp" stored =
      Some (or_default
              (lookup "timestamp" [("author", VInt 1); ("pushed_to", VNone);
                                   ("on", VStr "t"); ("sample", VList [])])
              (VDatetime (utcnow_at quiet_world (clock_reads quiet_world)))) /\
    (forall f, f <> "_id" -> f <> "timestamp" ->
               lookup f stored =
               lookup f [("author", VInt 1); ("pushed_to", VNone); ("on", VStr "t");
                         ("sample", VList [])]).
Proof.
  apply (insert_stores_and_returns_id
           [("author", VInt 1); ("pushed_to", VNone); ("on", VStr "t"); ("sample", VList [])]
           quiet_world).
  - intros f [<- | [<- | [<- | [<- | []]]]]; reflexivity.
  - intros doc. reflexivity.
Defined.

(** ** The /recent route *)

Import RecentRoute.

Lemma convert_items_bad (found : list dict) (item : dict) :
  In item found ->
  (exists f, convert_item item = inl f) ->
  exists f, convert_items found = inl f.
Proof.
  induction found as [|first rest IH]; intros Hin Hbad; [contradiction|].
  cbn [convert_items]. destruct (convert_item first) as [f | first'] eqn:Hfirst.
  - eauto.
  - destruct Hin as [-> | Hin].
    + destruct Hbad as [f Hf]. congruence.
    + destruct (IH Hin Hbad) as [f ->]. eauto.
Qed.

Lemma convert_items_each (found data : list dict) (item : dict) :
  convert_items found = inr data ->
  In item found ->
  exists item', convert_item item = inr item' /\ In item' data.
Proof.
  revert data. induction found as [|first rest IH]; intros data Hconv Hin; [contradiction|].
  cbn [convert_items] in Hconv.
  destruct (convert_item first) as [f | first'] eqn:Hfirst; [discriminate|].
  destruct (convert_items rest) as [f | rest'] eqn:Hrest; [discriminate|].
  injection Hconv as <-. destruct Hin as [-> | Hin].
  - exists first'. split; [exact Hfirst | left; reflexivity].
  - destruct (IH rest' eq_refl Hin) as (item' & Hitem & Hin').
    exists item'. split; [exact Hitem | right; exact Hin'].
Qed.

Lemma setitem_keeps_other (d : dict) (k k0 : string) (v v0 : value) :
  In (k, v) d -> k <> k0 -> In (k, v) (setitem d k0 v0).
Proof.
  intros Hin Hneq. induction d as [|[k1 v1] d IH]; [contradiction|].
  cbn [setitem]. destruct (String.eqb_spec k0 k1) as [<- | Hk].
  - destruct Hin as [Heq | Hin]; [injection Heq as -> ->; congruence | right; exact Hin].
  - destruct Hin as [Heq | Hin]; [left; exact Heq | right; exact (IH Hin)].
Qed.

Lemma setitem_entries (d : dict) (k k' : string) (v v' : value) :
  NoDup (map fst d) ->
  In (k', v') (setitem d k v) ->
  (k' = k /\ v' = v) \/ (k' <> k /\ In (k', v') d).
Proof.
  induction d as [|[k1 v1] d IH]; intros Hnodup Hin; cbn [setitem] in Hin.
  - destruct Hin as [Heq | []]. injection Heq as <- <-. left. split; reflexivity.
  - cbn [map fst] in Hnodup. apply NoDup_cons_iff in Hnodup as [Hfresh Hnodup].
    destruct (String.eqb_spec k k1) as [<- | Hk].
    + destruct Hin as [Heq | Hin].
      * injection Heq as <- <-. left. split; reflexivity.
      * right. split; [|right; exact Hin].
        intros ->. apply Hfresh. apply (in_map fst) in Hin. exact Hin.
    + destruct Hin as [Heq | Hin].
      * injection Heq as <- <-. right. split; [congruence | left; reflexivity].
      * destruct (IH Hnodup Hin) as [Hsame | [Hneq Hin']]; [left; exact Hsame|].
        right. split; [exact Hneq | right; exact Hin'].
Qed.

Lemma setitem_keys (d : dict) (k : string) (v : value) :
  contains d k = true -> map fst (setitem d k v) = map fst d.
Proof.
  unfold contains. induction d as [|[k1 v1] d IH]; cbn [lookup setitem]; [discriminate|].
  destruct (String.eqb k k1); cbn [map fst]; [reflexivity|].
  intros H. rewrite (IH H). reflexivity.
Qed.

(** One document is enough to make /recent answer 500 for the whole list:
    a document without an [_id], one whose [timestamp] is present and is
    not a datetime (a str, a number, null: the insert accepts any), or one
    that holds an ObjectId under any other key, also nested. *)
Theorem recent_poisoned_by_one_document (found : list dict) (item : dict) :
  In item found ->
  lookup "_id" item = None \/
  (exists v, lookup "timestamp" item = Some v /\ forall t, v <> VDatetime t) \/
  (exists k v, In (k, v) item /\ k <> "_id" /\ k <> "timestamp" /\ jsonable v = false) ->
  status (get_recent_data found) = 500.
Proof.
  intros Hin Hbad. unfold get_recent_data.
  destruct (convert_items found) as [f | data] eqn:Hconv; [reflexivity|].
  destruct (convert_items_each found data item Hconv Hin) as (item' & Hitem & Hin').
  assert (Hleft : forallb jsonable (map VDict data) = false);
    [|rewrite Hleft; reflexivity].
  destruct (forallb jsonable (map VDict data)) eqn:Hall; [exfalso | reflexivity].
  rewrite forallb_forall in Hall.
  specialize (Hall (VDict item') (in_map VDict _ _ Hin')).
  cbn [jsonable] in Hall. rewrite forallb_forall in Hall.
  unfold convert_item in Hitem.
  destruct Hbad as [Hid | [(v & Hv & Hnot) | (k & v & Hkv & Hk1 & Hk2 & Hv)]].
  - rewrite Hid in Hitem. discriminate.
  - destruct (lookup "_id" item) as [id|]; [|discriminate].
    cbv zeta in Hitem. rewrite lookup_setitem_other in Hitem by discriminate.
    rewrite Hv in Hitem. destruct v; try discriminate.
    eapply Hnot. reflexivity.
  - destruct (lookup "_id" item) as [id|]; [|discriminate].
    cbv zeta in Hitem.
    pose proof (setitem_keeps_other item k "_id" v (VStr (str id)) Hkv Hk1) as Hkept.
    destruct (lookup "timestamp" (setitem item "_id" (VStr (str id)))) as [[]|];
      try discriminate; injection Hitem as <-.
    + apply (setitem_keeps_other _ k "timestamp" v (VStr (isoformat t))) in Hkept;
        [|exact Hk2].
      specialize (Hall _ Hkept). cbn [snd] in Hall. congruence.
    + specialize (Hall _ Hkept). cbn [snd] in Hall. congruence.
Qed.

Lemma recent_poisoned_by_one_document_witness :
  status (get_recent_data
            [[("_id", VObjectId (repeat x00 12)); ("author", VStr "u");
              ("timestamp", VDatetime (Datetime 2024 1 1 12 0 0 0))];
             [("_id", VObjectId (repeat x01 12)); ("author", VStr "v");
              ("timestamp", VStr "2024-01-01T12:00:00Z")]]) = 500.
Proof.
  apply (recent_poisoned_by_one_document
           [[("_id", VObjectId (repeat x00 12)); ("author", VStr "u");
             ("timestamp", VDatetime (Datetime 2024 1 1 12 0 0 0))];
            [("_id", VObjectId (repeat x01 12)); ("author", VStr "v");
             ("timestamp", VStr "2024-01-01T12:00:00Z")]]
           [("_id", VObjectId (repeat x01 12)); ("author", VStr "v");
            ("timestamp", VStr "2024-01-01T12:00:00Z")]).
  - right. left. reflexivity.
  - right. left. eexists. split; [reflexivity | discriminate].
Defined.

Lemma convert_item_served (item : dict) :
  NoDup (map fst item) ->
  contains item "_id" = true ->
  (forall v, lookup "timestamp" item = Some v -> exists t, v = VDatetime t) ->
  (forall k v, In (k, v) item -> k <> "_id" -> jsonable v = true) ->
  exists item',
    convert_item item = inr item' /\
    jsonable (VDict item') = true /\
    map fst item' = map fst item /\
    (forall id, lookup "_id" item = Some id -> lookup "_id" item' = Some (VStr (str id))) /\
    (forall t, lookup "timestamp" item = Some (VDatetime t) ->
               lookup "timestamp" item' = Some (VStr (isoformat t))) /\
    (forall k, k <> "_id" -> k <> "timestamp" -> lookup k item' = lookup k item).
Proof.
  intros Hnodup Hid Htime Hrest. unfold convert_item, contains in *.
  destruct (lookup "_id" item) as [id|] eqn:Eid; [clear Hid | discriminate].
  cbv zeta. rewrite lookup_setitem_other by discriminate.
  assert (Hkeys1 : map fst (setitem item "_id" (VStr (str id))) = map fst item).
  { apply setitem_keys. unfold contains. rewrite Eid. reflexivity. }
  assert (Hjson1 : forall kv, In kv (setitem item "_id" (VStr (str id))) ->
                              jsonable (snd kv) = true).
  { intros [k v] Hin. cbn [snd].
    destruct (setitem_entries item "_id" k (VStr (str id)) v Hnodup Hin)
      as [[_ ->] | [Hneq Hin']]; [reflexivity | exact (Hrest k v Hin' Hneq)]. }
  destruct (lookup "timestamp" item) as [v|] eqn:Etime.
  - destruct (Htime v eq_refl) as [t ->].
    eexists. split; [reflexivity|]. repeat split.
    + cbn [jsonable]. apply forallb_forall. intros [k v] Hin. cbn [snd].
      rewrite <- Hkeys1 in Hnodup.
      destruct (setitem_entries _ "timestamp" k (VStr (isoformat t)) v Hnodup Hin)
        as [[_ ->] | [Hneq Hin']]; [reflexivity | exact (Hjson1 _ Hin')].
    + rewrite setitem_keys; [exact Hkeys1|].
      unfold contains. rewrite lookup_setitem_other by discriminate.
      rewrite Etime. reflexivity.
    + intros id' Hid'. injection Hid' as <-.
      rewrite lookup_setitem_other by discriminate. apply lookup_setitem_same.
    + intros t' Ht'. injection Ht' as <-. apply lookup_setitem_same.
    + intros k Hk1 Hk2. rewrite !lookup_setitem_other by assumption. reflexivity.
  - eexists. split; [reflexivity|]. repeat split.
    + cbn [jsonable]. apply forallb_forall. exact Hjson1.
    + exact Hkeys1.
    + intros id' Hid'. injection Hid' as <-. apply lookup_setitem_same.
    + discriminate.
    + intros k Hk1 Hk2. rewrite lookup_setitem_other by assumption. reflexivity.
Qed.

(** When every document found has distinct keys, an [_id], a [timestamp]
    that is absent or a datetime, and no ObjectId under another key,
    /recent answers 200 with [count] the number of documents found and
    [data] one item per document, in the same order and with the same keys:
    [_id] replaced by its [str], [timestamp] by its [isoformat()] text (no
    ['Z'] is appended here), every other entry unchanged. *)
Theorem recent_serves_documents (found : list dict) :
  Forall (fun item =>
            NoDup (map fst item) /\
            contains item "_id" = true /\
            (forall v, lookup "timestamp" item = Some v -> exists t, v = VDatetime t) /\
            (forall k v, In (k, v) item -> k <> "_id" -> jsonable v = true)) found ->
  exists data,
    get_recent_data found =
    Response [("data", VList (map VDict data));
              ("count", VInt (Z.of_nat (List.length found)))] 200 /\
    Forall2 (fun item item' =>
               map fst item' = map fst item /\
               (forall id, lookup "_id" item = Some id ->
                           lookup "_id" item' = Some (VStr (str id))) /\
               (forall t, lookup "timestamp" item = Some (VDatetime t) ->
                          lookup "timestamp" item' = Some (VStr (isoformat t))) /\
               (forall k, k <> "_id" -> k <> "timestamp" ->
                          lookup k item' = lookup k item)) found data.
Proof.
  intros Hgood.
  assert (H : exists data,
             convert_items found = inr data /\
             forallb jsonable (map VDict data) = true /\
             List.length data = List.length found /\
             Forall2 (fun item item' =>
               map fst item' = map fst item /\
               (forall id, lookup "_id" item = Some id ->
                           lookup "_id" item' = Some (VStr (str id))) /\
               (forall t, lookup "timestamp" item = Some (VDatetime t) ->
                          lookup "timestamp" item' = Some (VStr (isoformat t))) /\
               (forall k, k <> "_id" -> k <> "timestamp" ->
                          lookup k item' = lookup k item)) found data).
  { induction Hgood as [|item rest (Hnodup & Hid & Htime & Hrest) _ IH].
    - exists []. repeat split. constructor.
    - destruct IH as (data & Hconv & Hjson & Hlen & Hall).
      destruct (convert_item_served item Hnodup Hid Htime Hrest)
        as (item' & Hitem & Hjson' & Hshape).
      exists (item' :: data). cbn [convert_items]. rewrite Hitem, Hconv.
      repeat split.
      + cbn [map forallb]. rewrite Hjson', Hjson. reflexivity.
      + cbn [List.length]. rewrite Hlen. reflexivity.
      + constructor; [exact Hshape | exact Hall]. }
  destruct H as (data & Hconv & Hjson & Hlen & Hall).
  exists data. split; [|exact Hall].
  unfold get_recent_data. rewrite Hconv, Hjson, Hlen. reflexivity.
Qed.

Lemma recent_serves_documents_witness :
  exists data,
    get_recent_data
      [[("author", VStr "u"); ("timestamp", VDatetime (Datetime 2024 1 1 12 0 0 0));
        ("_id", VObjectId (repeat x00 12))]] =
    Response [("data", VList (map VDict data)); ("count", VInt 1)] 200 /\
    lookup "_id" (hd [] data) = Some (VStr "000000000000000000000000") /\
    lookup "timestamp" (hd [] data) = Some (VStr "2024-01-01T12:00:00").
Proof.
  destruct (recent_serves_documents
              [[("author", VStr "u"); ("timestamp", VDatetime (Datetime 2024 1 1 12 0 0 0));
                ("_id", VObjectId (repeat x00 12))]]) as (data & Hanswer & Hitems).
  - constructor; [|constructor]. repeat split.
    + cbn [map fst]. repeat constructor; cbn [In]; intuition discriminate.
    + intros v Hv. injection Hv as <-. eexists. reflexivity.
    + intros k v Hin Hk. cbn [In] in Hin.
      destruct Hin as [Heq | [Heq | [Heq | []]]]; injection Heq as <- <-;
        [reflexivity | reflexivity | congruence].
  - exists data. split; [exact Hanswer|].
    inversion Hitems as [|item item' rest rest' (_ & Hid & Htime & _) Hrest]; subst.
    cbn [hd]. split.
    + exact (Hid _ eq_refl).
    + exact (Htime _ eq_refl).
Defined.

Lemma recent_ok_iff (found : list dict) :
  status (get_recent_data found) = 200 <->
  exists data, convert_items found = inr data /\
               forallb jsonable (map VDict data) = true.
Proof.
  unfold get_recent_data. split.
  - destruct (convert_items found) as [f | data]; [discriminate|].
    destruct (forallb jsonable (map VDict data)) eqn:Hjson; [|discriminate].
    intros _. exists data. split; [reflexivity | exact Hjson].
  - intros (data & -> & ->). reflexivity.
Qed.

Lemma recent_ok_pointwise (found : list dict) :
  status (get_recent_data found) = 200 <->
  forall item, In item found -> status (get_recent_data [item]) = 200.
Proof.
  induction found as [|first rest IH].
  - split; [intros _ item [] | reflexivity].
  - rewrite recent_ok_iff. split.
    + intros (data & Hconv & Hjson). cbn [convert_items] in Hconv.
      destruct (convert_item first) as [f | first'] eqn:Hfirst; [discriminate|].
      destruct (convert_items rest) as [f | rest'] eqn:Hrest; [discriminate|].
      injection Hconv as <-. cbn [map forallb] in Hjson.
      apply andb_true_iff in Hjson as [Hj1 Hj2].
      intros item [<- | Hin].
      * apply recent_ok_iff. exists [first']. cbn [convert_items]. rewrite Hfirst.
        split; [reflexivity|]. cbn [map forallb]. rewrite Hj1. reflexivity.
      * apply (proj1 IH); [|exact Hin]. apply recent_ok_iff.
        exists rest'. split; [exact Hrest | exact Hj2].
    + intros Hall.
      pose proof (Hall first (or_introl eq_refl)) as Hfirst.
      apply recent_ok_iff in Hfirst as (data1 & Hconv1 & Hjson1).
      assert (Hrest : status (get_recent_data rest) = 200).
      { apply (proj2 IH). intros item Hin. apply Hall. right. exact Hin. }
      apply recent_ok_iff in Hrest as (data2 & Hconv2 & Hjson2).
      cbn [convert_items] in Hconv1 |- *.
      destruct (convert_item first) as [f | first']; [discriminate|].
      injection Hconv1 as <-. rewrite Hconv2.
      exists (first' :: data2). split; [reflexivity|].
      cbn [map forallb] in Hjson1 |- *.
      apply andb_true_iff in Hjson1 as [-> _]. exact Hjson2.
Qed.

(** Receiving a webhook keeps the collection servable: if /recent answers
    200 for every selection of documents of the collection before the
    request, it does so for every selection of documents of the collection
    after it, whatever the request was. *)
Theorem webhook_keeps_collection_servable (req : request) (w : world) (found : list dict) :
  (forall selection, incl selection (collection w) ->
                     status (get_recent_data selection) = 200) ->
  incl found (collection (snd (handle_webhook req w))) ->
  status (get_recent_data found) = 200.
Proof.
  intros Hbefore Hfound. apply recent_ok_pointwise. intros item Hin.
  apply Hfound in Hin.
  assert (Hold : In item (collection w) -> status (get_recent_data [item]) = 200).
  { intros Hitem. apply Hbefore. intros x [<- | []]. exact Hitem. }
  destruct (handle_webhook_cases req w)
    as [(msg & code & w' & Hrun & Hcode & Hcoll)
       | [(msg & Hrun)
         | (event & author & pushed_to & on & sample & n & Hn & Hrun)]];
    rewrite Hrun in Hin; cbn [snd] in Hin.
  - rewrite Hcoll in Hin. exact (Hold Hin).
  - exact (Hold Hin).
  - cbn [store collection] in Hin.
    destruct (ticks_frame (S n) w) as (_ & _ & _ & Hsame & _). rewrite Hsame in Hin.
    apply in_app_or in Hin as [Hin | [<- | []]]; [exact (Hold Hin)|].
    reflexivity.
Qed.

Lemma webhook_keeps_collection_servable_witness :
  status
    (get_recent_data
       (collection
          (snd (handle_webhook
                  (signed_request "push"
                     (push_payload "refs/heads/main" "r" "u"
                        [("message", VStr "m"); ("timestamp", VStr "2024-01-01T00:00:00Z")]))
                  quiet_world)))) = 200.
Proof.
  apply (webhook_keeps_collection_servable
           (signed_request "push"
              (push_payload "refs/heads/main" "r" "u"
                 [("message", VStr "m"); ("timestamp", VStr "2024-01-01T00:00:00Z")]))
           quiet_world).
  - intros selection Hsel. destruct selection as [|item rest]; [reflexivity|].
    destruct (Hsel item (or_introl eq_refl)).
  - apply incl_refl.
Defined.

(** ** The connection's retry loop *)

Import Connection.

Section Retry.

Variable server : nat -> attempt.
Variable os_refuses : Z -> bool.









End Retry.

Lemma connect_loop_returns (server : nat -> attempt) (os_refuses : Z -> bool) (n : nat) :
  forall (a m d : Z) (st : state),
    sleep os_refuses d = None ->
    exists b, fst (connect_loop server os_refuses n a m d st) = Return b.
Proof.
  induction n as [|n IH]; intros a m d st Hd; cbn [connect_loop].
  - exists false. reflexivity.
  - rewrite Hd.
    destruct (server (attempts st)) as [[]|[]|]; cbn [fst]; eauto;
      destruct (a <? m - 1)%Z; cbn [fst]; eauto.
Qed.











(** Which client the loop leaves: none only if there was none before and
    the constructor raised in every attempt made. *)
Lemma connect_loop_client (server : nat -> attempt) (os_refuses : Z -> bool) (n : nat) :
  forall (a m d : Z) (st : state),
    exists made,
      made <= n /\ (0 < n -> 0 < made) /\
      attempts (snd (connect_loop server os_refuses n a m d st)) = attempts st + made /\
      (client (snd (connect_loop server os_refuses n a m d st)) = None <->
       client st = None /\
       forall i, i < made -> exists f, server (attempts st + i) = ClientRaises f).
Proof.
  assert (Hone : forall (k : nat) (c c' : option nat),
             (c' = None <-> c = None /\ exists f, server k = ClientRaises f) ->
             c' = None <->
             c = None /\ forall i, i < 1 -> exists f, server (k + i) = ClientRaises f).
  { intros k c c' H. rewrite H. split; intros [Hc Hf]; (split; [exact Hc|]).
    - intros i Hi. replace i with 0 by lia. rewrite Nat.add_0_r. exact Hf.
    - specialize (Hf 0 ltac:(lia)). rewrite Nat.add_0_r in Hf. exact Hf. }
  induction n as [|n IH]; intros a m d st.
  - exists 0. cbn [connect_loop snd]. rewrite Nat.add_0_r.
    split; [lia|]. split; [lia|]. split; [reflexivity|].
    split; [intros H; split; [exact H | intros i Hi; lia] | intros [H _]; exact H].
  - assert (Hmore : forall c,
               (c = None <-> client st = None /\
                             exists f, server (attempts st) = ClientRaises f) ->
               exists made,
                 made <= S n /\ (0 < S n -> 0 < made) /\
                 attempts (snd (connect_loop server os_refuses n (a + 1) m d
                                  (State c (S (attempts st)) (slept st ++ [d])))) =
                 attempts st + made /\
                 (client (snd (connect_loop server os_refuses n (a + 1) m d
                                 (State c (S (attempts st)) (slept st ++ [d])))) = None <->
                  client st = None /\
                  forall i, i < made ->
                            exists f, server (attempts st + i) = ClientRaises f)).
    { intros c Hc.
      destruct (IH (a + 1)%Z m d (State c (S (attempts st)) (slept st ++ [d])))
        as (made & Hle & _ & Hattempts & Hclient).
      cbn [attempts client] in Hattempts, Hclient.
      exists (S made). split; [lia|]. split; [lia|]. split; [lia|].
      rewrite Hclient, Hc. split.
      - intros [[Hnone Hfirst] Hrest]. split; [exact Hnone|].
        intros [|i] Hi; [rewrite Nat.add_0_r; exact Hfirst|].
        replace (attempts st + S i) with (S (attempts st) + i) by lia.
        apply Hrest. lia.
      - intros [Hnone Hall]. split; [split; [exact Hnone|]|].
        + specialize (Hall 0 ltac:(lia)). rewrite Nat.add_0_r in Hall. exact Hall.
        + intros i Hi. replace (S (attempts st) + i) with (attempts st + S i) by lia.
          apply Hall. lia. }
    assert (Hstop : forall r c,
               (c = None <-> client st = None /\
                             exists f, server (attempts st) = ClientRaises f) ->
               exists made,
                 made <= S n /\ (0 < S n -> 0 < made) /\
                 attempts (snd (r : outcome bool, State c (S (attempts st)) (slept st))) =
                 attempts st + made /\
                 (client (snd (r, State c (S (attempts st)) (slept st))) = None <->
                  client st = None /\
                  forall i, i < made ->
                            exists f, server (attempts st + i) = ClientRaises f)).
    { intros r c Hc. exists 1. cbn [snd attempts client].
      split; [lia|]. split; [lia|]. split; [lia|]. apply Hone. exact Hc. }
    cbn [connect_loop].
    destruct (server (attempts st)) as [[]|[]|] eqn:E; cbn [client attempts slept];
      repeat match goal with
             | |- context [if ?b then _ else _] => destruct b
             | |- context [match sleep os_refuses d with _ => _ end] =>
                 destruct (sleep os_refuses d)
             end;
      first [apply Hmore | apply Hstop];
      (split; [intros H; first [discriminate H | split; [exact H | eauto]]
              | intros [H [f Hf]]; first [discriminate Hf | exact H]]).
Qed.

(** [get_client] on a connection without a client makes one to three
    attempts and never raises; it returns the client that is left, pinged
    or not, and that is None only when the constructor raised in every
    attempt made. *)
Theorem get_client_without_client (server : nat -> attempt) (os_refuses : Z -> bool) (st : state) :
  client st = None ->
  exists made,
    1 <= made <= 3 /\
    attempts (snd (get_client server os_refuses st)) = attempts st + made /\
    fst (get_client server os_refuses st) = Return (client (snd (get_client server os_refuses st))) /\
    (client (snd (get_client server os_refuses st)) = None <->
     forall i, i < made -> exists f, server (attempts st + i) = ClientRaises f).
Proof.
  intros Hnone. unfold get_client, connect. rewrite Hnone.
  destruct (connect_loop_client server os_refuses (Z.to_nat 3) 0 3 2 st)
    as (made & Hle & Hpos & Hattempts & Hclient).
  destruct (connect_loop_returns server os_refuses (Z.to_nat 3) 0 3 2 st eq_refl)
    as [b Hb].
  destruct (connect_loop server os_refuses (Z.to_nat 3) 0 3 2 st) as [r st'].
  cbn [fst snd] in *. subst r. cbn [fst snd].
  exists made. split; [change (Z.to_nat 3) with 3 in *; lia|].
  split; [exact Hattempts|]. split; [reflexivity|].
  rewrite Hclient. tauto.
Qed.

Lemma get_client_without_client_witness :
  exists made,
    1 <= made <= 3 /\
    attempts (snd (get_client (fun _ => ClientRaises Retryable) (fun _ => true) initial)) =
    attempts initial + made /\
    fst (get_client (fun _ => ClientRaises Retryable) (fun _ => true) initial) =
    Return (client (snd (get_client (fun _ => ClientRaises Retryable) (fun _ => true)
                                    initial))) /\
    (client (snd (get_client (fun _ => ClientRaises Retryable) (fun _ => true) initial))
     = None <->
     forall i, i < made -> exists f, ClientRaises Retryable = ClientRaises f).
Proof.
  apply (get_client_without_client (fun _ => ClientRaises Retryable) (fun _ => true)
                                   initial).
  reflexivity.
Defined.
